(** * GAAYATRI chatbot: message intake, context handling and safety gating

    A shallow embedding of [chatbot/services.py], [chatbot/views.py],
    [chatbot/models.py] and [chatbot/embedding_filter.py], with the
    properties of the intake pipeline proved over it.

    Conventions of the embedding.
    - Python [str] values are [string]s of ASCII characters; [lower] and
      [strip] act on ASCII letters and ASCII white space and leave every
      other character alone.
    - A Python [dict] with string keys is a [gmap string _]: iteration
      order plays no role in the functions embedded here.
    - Python [float]s are exact decimal fractions, plus the two infinities
      and NaN; binary rounding and overflow are not represented.
    - An exception that the source does not catch makes the view answer
      with HTTP 500; functions that can raise return an [option]. *)

From Stdlib Require Import ZArith Ascii String List Lia DecimalString.
From stdpp Require Import base option list gmap strings fin_maps.

Local Open Scope string_scope.
Local Open Scope Z_scope.

(** ** Strings *)

Module Str.

(** [str.lower] on ASCII: the 26 capital letters move down by 32. *)
Definition is_upper (c : ascii) : bool :=
  let n := nat_of_ascii c in (Nat.leb 65 n && Nat.leb n 90)%bool.

Definition lower_char (c : ascii) : ascii :=
  if is_upper c then ascii_of_nat (nat_of_ascii c + 32) else c.

Fixpoint lower (s : string) : string :=
  match s with
  | EmptyString => EmptyString
  | String c t => String (lower_char c) (lower t)
  end.

(** The characters [str.strip] and the regular expression class [\s]
    remove: tab, line feed, vertical tab, form feed, carriage return,
    the four separators 28-31 and the space. *)
Definition is_space (c : ascii) : bool :=
  let n := nat_of_ascii c in
  ((Nat.leb 9 n && Nat.leb n 13) || (Nat.leb 28 n && Nat.leb n 32))%bool.

Fixpoint lstrip (s : string) : string :=
  match s with
  | EmptyString => EmptyString
  | String c t => if is_space c then lstrip t else s
  end.

(** [rstrip]: a character stays when something that is not white space
    follows it or when it is not white space itself. *)
Fixpoint rstrip (s : string) : string :=
  match s with
  | EmptyString => EmptyString
  | String c t =>
      match rstrip t with
      | EmptyString => if is_space c then EmptyString else String c EmptyString
      | r => String c r
      end
  end.

Definition strip (s : string) : string := rstrip (lstrip s).

(** [needle in hay]. *)
Fixpoint contains (needle hay : string) : bool :=
  (String.prefix needle hay ||
   match hay with
   | EmptyString => false
   | String _ t => contains needle t
   end)%bool.

(** [any(term in hay for term in terms)]. *)
Definition any_in (terms : list string) (hay : string) : bool :=
  existsb (fun term => contains term hay) terms.

(** [sep.join(parts)]. *)
Fixpoint join (sep : string) (parts : list string) : string :=
  match parts with
  | [] => EmptyString
  | [p] => p
  | p :: rest => p ++ sep ++ join sep rest
  end.

(** [str(n)] for an [int]. *)
Definition of_Z (z : Z) : string := NilZero.string_of_int (Z.to_int z).

End Str.

(** ** The term lists and patterns of [chatbot/constants.py]

    The module is imported by [services.py] and [views.py] but is not part
    of the sources at hand, so its contents are parameters: five term
    lists, the two compiled regular expressions (each represented by its
    [search] predicate) and the default location label. *)

Record constants := {
  BOVINE_CORE_TERMS : list string;
  SELF_HARM_TERMS : list string;
  VIOLENCE_TERMS : list string;
  HUMAN_HEALTH_TERMS : list string;
  HUMAN_HEALTH_CUES : list string;
  GREETING_PATTERN : string -> bool;
  CATTLE_KEYWORD_PATTERN : string -> bool;
  DEFAULT_LOCATION_LABEL : string
}.

(** ** Safety classifier ([services.py], lines 133-155) *)

Section Classifier.
Context (K : constants).

Definition _has_human_health_intent (lowered : string) : bool :=
  if existsb (fun term => Str.contains ("my " ++ term) lowered) (BOVINE_CORE_TERMS K)
  then false
  else if Str.any_in
            ["cow"; "buffalo"; "cattle"; "calf"; "heifer"; "bull"; "livestock"; "animal"]
            lowered
  then false
  else if negb (Str.any_in (HUMAN_HEALTH_TERMS K) lowered) then false
  else Str.any_in (HUMAN_HEALTH_CUES K) lowered.

Definition should_refuse (message : string) (has_cattle_context : bool) : option string :=
  let lowered := Str.lower message in
  match find (fun term => Str.contains term lowered) (SELF_HARM_TERMS K) with
  | Some _ => Some "self_harm"
  | None =>
      if negb has_cattle_context then
        if Str.any_in (VIOLENCE_TERMS K) lowered then Some "violence"
        else if _has_human_health_intent lowered then Some "human_health"
        else if (Str.contains "medicine for me" lowered
                 || Str.contains "treatment for me" lowered
                 || Str.contains "i need medicine" lowered)%bool
        then Some "human_health"
        else None
      else None
  end.

Definition matches_greeting (text : string) : bool :=
  GREETING_PATTERN K (Str.lower text).

Definition keyword_match (lowered : string) : bool :=
  CATTLE_KEYWORD_PATTERN K lowered.

End Classifier.

(** ** Python values

    The values a decoded JSON document can hold.  A list or a nested dict
    is kept as [VOther] with the text [str()] gives for it: the functions
    below look at such a value only through [str()] and through the type
    tests that it fails. *)

Inductive pyfloat :=
| Fin (num : Z) (den : positive)   (* the fraction num / den *)
| Inf (negative : bool)
| NaN.

Inductive PyVal :=
| VNone
| VBool (b : bool)
| VInt (z : Z)
| VFloat (f : pyfloat)
| VStr (s : string)
| VOther (repr : string).

#[global] Instance pyfloat_eq_dec : EqDecision pyfloat.
Proof. solve_decision. Defined.

#[global] Instance PyVal_eq_dec : EqDecision PyVal.
Proof. solve_decision. Defined.

(** A context is a dict from field names to values. *)
Abbreviation Context := (gmap string PyVal).

(** What [json.loads(...).get("context")] can be: a dict, or anything else
    (absent, [None], a list, a number, ...). *)
Inductive PyAny :=
| PyDict (d : Context)
| PyNotDict.

Module Float.

(** [x.is_integer()]. *)
Definition is_integer (x : pyfloat) : bool :=
  match x with
  | Fin n d => n mod Z.pos d =? 0
  | _ => false
  end.

(** [int(x)] for a finite [x]: truncation towards zero. *)
Definition trunc (x : pyfloat) : Z :=
  match x with
  | Fin n d => Z.quot n (Z.pos d)
  | _ => 0
  end.

(** The integer nearest to [n / d], ties going to the even one. *)
Definition round_half_even (n : Z) (d : positive) : Z :=
  let q := n / Z.pos d in
  let r := n mod Z.pos d in
  if 2 * r <? Z.pos d then q
  else if Z.pos d <? 2 * r then q + 1
  else if Z.even q then q else q + 1.

(** [round(x, 2)]. *)
Definition round2 (x : pyfloat) : pyfloat :=
  match x with
  | Fin n d => Fin (round_half_even (n * 100) d) 100
  | _ => x
  end.

(** [x == y] on floats: NaN equals nothing, itself included. *)
Definition eqb (x y : pyfloat) : bool :=
  match x, y with
  | Fin n d, Fin n' d' => n * Z.pos d' =? n' * Z.pos d
  | Inf s, Inf s' => Bool.eqb s s'
  | _, _ => false
  end.

(** [x <= y]. *)
Definition leb (x y : pyfloat) : bool :=
  match x, y with
  | Fin n d, Fin n' d' => n * Z.pos d' <=? n' * Z.pos d
  | Inf true, Fin _ _ | Inf true, Inf _ => true
  | Fin _ _, Inf false | Inf false, Inf false => true
  | _, _ => false
  end.

Definition of_Z (z : Z) : pyfloat := Fin z 1.

(** *** Reading a number from text: [float(s)] and [int(s)] *)

Definition digit_val (c : ascii) : option Z :=
  let n := nat_of_ascii c in
  if (Nat.leb 48 n && Nat.leb n 57)%bool then Some (Z.of_nat n - 48) else None.

(** After a first digit: more digits, each optionally preceded by one
    underscore.  Yields the number read so far, how many digits it has and
    the text left over. *)
Fixpoint more_digits (s : string) (acc : Z) (count : nat) : Z * nat * string :=
  match s with
  | String c t =>
      match digit_val c with
      | Some v => more_digits t (acc * 10 + v) (S count)
      | None =>
          if Ascii.eqb c "_" then
            match t with
            | String c' t' =>
                match digit_val c' with
                | Some v => more_digits t' (acc * 10 + v) (S count)
                | None => (acc, count, s)
                end
            | EmptyString => (acc, count, s)
            end
          else (acc, count, s)
      end
  | EmptyString => (acc, count, s)
  end.

(** [digitpart ::= digit (["_"] digit)*], continuing the number [acc]. *)
Definition digitpart (s : string) (acc : Z) : option (Z * nat * string) :=
  match s with
  | String c t =>
      match digit_val c with
      | Some v => Some (more_digits t (acc * 10 + v) 1)
      | None => None
      end
  | EmptyString => None
  end.

(** An optional sign: [true] for a minus. *)
Definition sign (s : string) : bool * string :=
  match s with
  | String "-" t => (true, t)
  | String "+" t => (false, t)
  | _ => (false, s)
  end.

Definition apply_sign (negative : bool) (z : Z) : Z := if negative then - z else z.

(** The mantissa [m] with [scale] digits after the point and the decimal
    exponent [e]: the number [m * 10 ^ (e - scale)]. *)
Definition scaled (m : Z) (scale : nat) (e : Z) : pyfloat :=
  let shift := e - Z.of_nat scale in
  if 0 <=? shift then Fin (m * 10 ^ shift) 1
  else Fin m (Z.to_pos (10 ^ (- shift))).

(** The optional exponent part; the text must end after it. *)
Definition exponent (s : string) : option Z :=
  match s with
  | EmptyString => Some 0
  | String c t =>
      if (Ascii.eqb c "e" || Ascii.eqb c "E")%bool then
        let '(neg, t') := sign t in
        match digitpart t' 0 with
        | Some (e, _, EmptyString) => Some (apply_sign neg e)
        | _ => None
        end
      else None
  end.

(** An unsigned decimal literal: [12], [12.], [12.5], [.5], each with an
    optional exponent. *)
Definition decimal (s : string) : option pyfloat :=
  match s with
  | String "." t =>
      match digitpart t 0 with
      | Some (m, scale, rest) =>
          match exponent rest with
          | Some e => Some (scaled m scale e)
          | None => None
          end
      | None => None
      end
  | _ =>
      match digitpart s 0 with
      | Some (ip, _, String "." rest) =>
          let '(m, scale, rest') :=
            match digitpart rest ip with
            | Some r => r
            | None => (ip, 0%nat, rest)
            end in
          match exponent rest' with
          | Some e => Some (scaled m scale e)
          | None => None
          end
      | Some (ip, _, rest) =>
          match exponent rest with
          | Some e => Some (scaled ip 0 e)
          | None => None
          end
      | None => None
      end
  end.

(** [float(s)]: white space around the number is ignored; [None] stands
    for [ValueError]. *)
Definition of_string (s : string) : option pyfloat :=
  let '(neg, body) := sign (Str.strip s) in
  let word := Str.lower body in
  if (String.eqb word "inf" || String.eqb word "infinity")%bool then Some (Inf neg)
  else if String.eqb word "nan" then Some NaN
  else
    match decimal body with
    | Some (Fin n d) => Some (Fin (apply_sign neg n) d)
    | other => other
    end.

(** [int(s)]: an optionally signed [digitpart] with white space around it;
    [None] stands for [ValueError]. *)
Definition int_of_string (s : string) : option Z :=
  let '(neg, body) := sign (Str.strip s) in
  match digitpart body 0 with
  | Some (z, _, EmptyString) => Some (apply_sign neg z)
  | _ => None
  end.

End Float.

(** ** Built-in operations on values *)

Module Py.

(** [value in (None, "")]. *)
Definition is_blank (v : PyVal) : bool :=
  match v with
  | VNone => true
  | VStr EmptyString => true
  | _ => false
  end.

(** [bool(value)]. *)
Definition truthy (v : PyVal) : bool :=
  match v with
  | VNone => false
  | VBool b => b
  | VInt z => negb (z =? 0)
  | VFloat (Fin n _) => negb (n =? 0)
  | VFloat _ => true
  | VStr s => negb (String.eqb s "")
  | VOther r => negb (String.eqb r "[]" || String.eqb r "{}")
  end.

(** [float(value)]; [None] stands for the [TypeError] or [ValueError]
    that the callers catch. *)
Definition float (v : PyVal) : option pyfloat :=
  match v with
  | VBool b => Some (Float.of_Z (if b then 1 else 0))
  | VInt z => Some (Float.of_Z z)
  | VFloat f => Some f
  | VStr s => Float.of_string s
  | VNone | VOther _ => None
  end.

(** [int(value)] has three outcomes: a number, an error that the caller
    catches ([TypeError], [ValueError]: [int(None)], [int("abc")],
    [int(nan)]), or [OverflowError] for an infinity, which it does not. *)
Inductive int_result :=
| IntOk (z : Z)
| IntError
| IntOverflow.

Definition int (v : PyVal) : int_result :=
  match v with
  | VBool b => IntOk (if b then 1 else 0)
  | VInt z => IntOk z
  | VFloat (Fin n d) => IntOk (Float.trunc (Fin n d))
  | VFloat (Inf _) => IntOverflow
  | VFloat NaN => IntError
  | VStr s => match Float.int_of_string s with Some z => IntOk z | None => IntError end
  | VNone | VOther _ => IntError
  end.

(** The number a [bool], [int] or [float] stands for in a comparison. *)
Definition number (v : PyVal) : option pyfloat :=
  match v with
  | VBool b => Some (Float.of_Z (if b then 1 else 0))
  | VInt z => Some (Float.of_Z z)
  | VFloat f => Some f
  | _ => None
  end.

(** [v == w]: numbers compare by value across [bool], [int] and [float];
    lists and dicts are compared through their text, which only matters
    when both sides are such values. *)
Definition eqb (v w : PyVal) : bool :=
  match number v, number w with
  | Some x, Some y => Float.eqb x y
  | None, None =>
      match v, w with
      | VNone, VNone => true
      | VStr s, VStr t => String.eqb s t
      | VOther r, VOther r' => String.eqb r r'
      | _, _ => false
      end
  | _, _ => false
  end.

(** [a == b] on dicts: the same keys, with equal values. *)
Definition dict_eq (a b : Context) : Prop :=
  map_relation (fun _ v w => eqb v w = true) (fun _ _ => False) (fun _ _ => False) a b.

#[global] Instance dict_eq_dec : RelDecision dict_eq.
Proof. unfold dict_eq. apply _. Defined.

Definition dict_eqb (a b : Context) : bool := bool_decide (dict_eq a b).

(** [d.setdefault(key, value)]. *)
Definition setdefault (key : string) (value : PyVal) (d : Context) : Context :=
  match d !! key with
  | Some _ => d
  | None => <[key := value]> d
  end.

Section Text.
(** [repr] of a float (Python prints the shortest decimal that reads
    back as the same binary number) is left open. *)
Context (float_repr : pyfloat -> string).

(** [str(value)]. *)
Definition str (v : PyVal) : string :=
  match v with
  | VNone => "None"
  | VBool true => "True"
  | VBool false => "False"
  | VInt z => Str.of_Z z
  | VFloat f => float_repr f
  | VStr s => s
  | VOther r => r
  end.
End Text.

End Py.

(** ** Context normalisation ([services.py], lines 207-252) *)

Definition allowed_keys : list string :=
  ["source"; "animal_id"; "name"; "tag_number"; "breed"; "age_years"; "milk_yield";
   "issue"; "notes"; "lactation_stage"; "last_vaccination_date"; "is_sick"].

Definition numeric_keys : list string := ["age_years"; "milk_yield"].

Definition boolean_keys : list string := ["is_sick"].

Definition truthy_tokens : list string := ["1"; "true"; "yes"; "y"].

Section Normalise.
Context (float_repr : pyfloat -> string).

(** The body of the loop for one [(key, value)] item: [None] when the
    loop leaves [cleaned] alone, [Some v] when it sets [cleaned[key] = v]. *)
Definition normalise_item (key : string) (value : PyVal) : option PyVal :=
  if (negb (bool_decide (key ∈ allowed_keys)) || Py.is_blank value)%bool then None
  else if bool_decide (key ∈ numeric_keys) then
    match Py.float value with
    | None => None
    | Some number =>
        if Float.is_integer number then Some (VInt (Float.trunc number))
        else Some (VFloat (Float.round2 number))
    end
  else if bool_decide (key ∈ boolean_keys) then
    match value with
    | VBool b => Some (VBool b)
    | _ =>
        Some (VBool (bool_decide
                (Str.lower (Str.strip (Py.str float_repr value)) ∈ truthy_tokens)))
    end
  else
    match value with
    | VBool _ | VInt _ | VFloat _ => Some value
    | _ => Some (VStr (Str.strip (Py.str float_repr value)))
    end.

Definition normalise_context (raw : PyAny) : Context :=
  match raw with
  | PyNotDict => ∅
  | PyDict d =>
      let cleaned := map_imap normalise_item d in
      if (negb (bool_decide (cleaned = ∅)) && bool_decide (cleaned !! "source" = None))%bool
      then <["source" := VStr "manual"]> cleaned
      else cleaned
  end.

End Normalise.

(** ** Users and the animal records of [core.models]

    Modelled from the spec: [core/models.py] is not among the sources; the
    record carries the fields the spec lists for an animal record (name,
    tag_number, breed, age_years, daily_milk_yield, last_vaccination_date)
    and its owner.  A date is kept as its ISO text. *)

Record User := {
  user_id : positive;
  is_farmer : bool
}.

Record Cattle := {
  cattle_owner : positive;
  cattle_name : string;
  cattle_tag_number : string;
  cattle_breed : string;
  cattle_age_years : option Z;
  cattle_daily_milk_yield : option pyfloat;
  cattle_last_vaccination_date : option string
}.

(** [Cattle.objects.get(pk=animal_pk, owner=user)]; [None] stands for
    [Cattle.DoesNotExist].  Primary keys are positive. *)
Definition cattle_get (herd : gmap positive Cattle) (animal_pk : Z) (user : User)
  : option (positive * Cattle) :=
  if 0 <? animal_pk then
    match herd !! Z.to_pos animal_pk with
    | Some c =>
        if bool_decide (cattle_owner c = user_id user)
        then Some (Z.to_pos animal_pk, c) else None
    | None => None
    end
  else None.

(** ** Context enrichment ([services.py], lines 255-294)

    The result is [None] when [int(animal_id)] raises [OverflowError],
    which the function does not catch. *)

Definition option_to_val {A} (f : A -> PyVal) (o : option A) : PyVal :=
  match o with
  | Some a => f a
  | None => VNone
  end.

(** The branch taken when the animal was found (lines 274-287). *)
Definition enrich_from (pk : positive) (c : Cattle) (enriched : Context) : Context :=
  let enriched := <["animal_id" := VInt (Z.pos pk)]> enriched in
  let enriched := <["source" := VStr "saved"]> enriched in
  let enriched := Py.setdefault "name" (VStr (cattle_name c)) enriched in
  let enriched := Py.setdefault "tag_number" (VStr (cattle_tag_number c)) enriched in
  let enriched := Py.setdefault "breed" (VStr (cattle_breed c)) enriched in
  let enriched := Py.setdefault "age_years" (option_to_val VInt (cattle_age_years c)) enriched in
  let enriched :=
    match cattle_daily_milk_yield c with
    | Some milk =>
        Py.setdefault "milk_yield"
          (if negb (Float.is_integer milk) then VFloat (Float.round2 milk)
           else VInt (Float.trunc milk))
          enriched
    | None => enriched
    end in
  match cattle_last_vaccination_date c with
  | Some iso => Py.setdefault "last_vaccination_date" (VStr iso) enriched
  | None => enriched
  end.

(** The final loop (lines 291-293). *)
Definition prune (enriched : Context) : Context :=
  filter (fun item => Py.is_blank item.2 = false) enriched.

Definition augment_context_with_cattle
  (herd : gmap positive Cattle) (user : User) (context : Context) : option Context :=
  if bool_decide (context = ∅) then Some ∅
  else
    let enriched := context in
    let cattle_obj : option (option (positive * Cattle)) :=
      match enriched !! "animal_id" with
      | None => Some None
      | Some animal_id =>
          if Py.is_blank animal_id then Some None
          else
            match Py.int animal_id with
            | Py.IntOk animal_pk =>
                Some (if animal_pk =? 0 then None else cattle_get herd animal_pk user)
            | Py.IntError => Some None
            | Py.IntOverflow => None
            end
      end in
    match cattle_obj with
    | None => None
    | Some (Some (pk, c)) => Some (prune (enrich_from pk c enriched))
    | Some None => Some (prune (delete "animal_id" enriched))
    end.

(** ** Reply formatting ([services.py], lines 158-204, 297-313, 416-424) *)

Definition nl : string := String (ascii_of_nat 10) EmptyString.

Definition is_newline (c : ascii) : bool := Ascii.eqb c (ascii_of_nat 10).

(** [re.sub(r"[ \t]+", " ", text)]: [in_run] says that the previous
    character was a space or a tab. *)
Fixpoint collapse_blanks (in_run : bool) (s : string) : string :=
  match s with
  | EmptyString => EmptyString
  | String c t =>
      if (Ascii.eqb c " " || Ascii.eqb c (ascii_of_nat 9))%bool then
        if in_run then collapse_blanks true t
        else String " " (collapse_blanks true t)
      else String c (collapse_blanks false t)
  end.

Definition snoc (s : string) (c : ascii) : string := s ++ String c EmptyString.

(** [re.split(r"\n{2,}", text)]: [cur] is the piece being read,
    [skipping] says that a separator is being consumed. *)
Fixpoint split_paragraphs (skipping : bool) (cur : string) (s : string) : list string :=
  match s with
  | EmptyString => [cur]
  | String c t =>
      if is_newline c then
        if skipping then split_paragraphs true cur t
        else
          match t with
          | String c' _ =>
              if is_newline c' then cur :: split_paragraphs true EmptyString t
              else split_paragraphs false (snoc cur c) t
          | EmptyString => [snoc cur c]
          end
      else split_paragraphs false (snoc cur c) t
  end.

Definition is_sentence_end (c : ascii) : bool :=
  (Ascii.eqb c "." || Ascii.eqb c "!" || Ascii.eqb c "?")%bool.

(** [re.split(r"(?<=[.!?])\s+", paragraph)]: a run of white space that
    follows one of [.!?] separates two pieces. *)
Fixpoint split_sentences (after_end skipping : bool) (cur : string) (s : string)
  : list string :=
  match s with
  | EmptyString => [cur]
  | String c t =>
      if Str.is_space c then
        if skipping then split_sentences false true cur t
        else if after_end then cur :: split_sentences false true EmptyString t
        else split_sentences false false (snoc cur c) t
      else split_sentences (is_sentence_end c) false (snoc cur c) t
  end.

Definition nonempty (s : string) : bool := negb (String.eqb s "").

Definition stripped_pieces (pieces : list string) : list string :=
  List.filter nonempty (map Str.strip pieces).

Definition format_paragraph (paragraph : string) : string :=
  let sentences := stripped_pieces (split_sentences false false EmptyString paragraph) in
  match sentences with
  | lead :: _ :: _ =>
      let bullets := map (fun sentence => "- " ++ sentence) (List.filter nonempty (tl sentences)) in
      match bullets with
      | [] => paragraph
      | _ => Str.join nl (lead :: bullets)
      end
  | _ => paragraph
  end.

Definition beautify_reply (text : string) : string :=
  let text := Str.strip text in
  if String.eqb text "" then text
  else
    let text := collapse_blanks false text in
    let paragraphs := stripped_pieces (split_paragraphs false EmptyString text) in
    let formatted_paragraphs := map format_paragraph paragraphs in
    match formatted_paragraphs with
    | [] => text
    | _ => Str.join (nl ++ nl) formatted_paragraphs
    end.

Definition build_refusal_reply (reason : string) : string :=
  let base := "I'm here to support Indian dairy farmers with cattle care and management." in
  let guidance :=
    if String.eqb reason "human_health" then
      " I can't provide advice on human medical concerns. Please speak with a qualified doctor or your local health helpline for assistance."
    else if String.eqb reason "self_harm" then
      " It sounds like you may need urgent help. Contact local emergency services, a trusted person, or a mental health professional immediately."
    else if String.eqb reason "violence" then
      " I can't assist with harmful or illegal actions. Please stay safe and reach out to the appropriate authorities if needed."
    else
      " Let's focus on bovine health, nutrition, reproduction, housing, or dairy farm management queries." in
  beautify_reply (base ++ guidance).

Definition scope_msg : string :=
  beautify_reply
    "I'm focused on dairy cattle support. Choose one of your saved animals or share breed, age, milk yield, and current symptoms so I can guide you better.".

Section Summary.
Context (float_repr : pyfloat -> string).

(** [ctx.get(key)] when it is truthy. *)
Definition present (ctx : Context) (key : string) : option PyVal :=
  match ctx !! key with
  | Some v => if Py.truthy v then Some v else None
  | None => None
  end.

(** A part built with an f-string: any value is formatted. *)
Definition formatted_part (ctx : Context) (key : string) (wrap : string -> string)
  : list string :=
  match present ctx key with
  | Some v => [wrap (Py.str float_repr v)]
  | None => []
  end.

(** The name is appended as it is, and [", ".join(parts)] raises
    [TypeError] on a part that is not a [str]: the result is [None] then. *)
Definition context_summary (ctx : Context) : option string :=
  if bool_decide (ctx = ∅) then Some EmptyString
  else
    let name_part : option (list string) :=
      match present ctx "name" with
      | Some (VStr s) => Some [s]
      | Some _ => None
      | None => Some []
      end in
    match name_part with
    | None => None
    | Some name_part =>
        Some (Str.join ", "
                (name_part
                 ++ formatted_part ctx "breed" (fun v => v ++ " breed")
                 ++ formatted_part ctx "age_years" (fun v => v ++ " years old")
                 ++ formatted_part ctx "milk_yield" (fun v => v ++ " L/day")
                 ++ formatted_part ctx "issue" (fun v => "Issue: " ++ v)
                 ++ formatted_part ctx "lactation_stage" (fun v => "Stage: " ++ v)))
    end.

Definition greeting_for_context (context : Context) : option string :=
  let welcome :=
    "Namaste! I'm GAAYATRI's dairy assistant. Ask me about cow or buffalo health, milk yield, nutrition, breeding, or daily management." in
  match context_summary context with
  | None => None
  | Some summary =>
      Some (beautify_reply
              (if nonempty summary
               then "Namaste! I see we're discussing " ++ summary ++ ". " ++ welcome
               else welcome))
  end.

End Summary.

(** ** Semantic filter ([embedding_filter.py], lines 60-72)

    [best_score] is the largest cosine similarity between the query and
    the topic prompts, as the sentence-transformer computes it; it is
    [None] when loading or running the model raises. *)

Definition is_cattle_related
  (best_score : string -> option pyfloat) (threshold : pyfloat) (query : string)
  : option (bool * pyfloat) :=
  if String.eqb query "" then Some (false, Fin 0 1)
  else
    match best_score query with
    | Some best => Some (Float.leb threshold best, best)
    | None => None
    end.

(** ** The stores ([chatbot/models.py]) *)

Inductive Role := RoleUser | RoleBot.

#[global] Instance Role_eq_dec : EqDecision Role.
Proof. solve_decision. Defined.

Record ChatSession := {
  session_user : positive;
  session_context : Context
}.

Record ChatMessage := {
  message_session : positive;
  message_role : Role;
  message_text : string;
  message_location : string;
  message_feedback : Z
}.

Record Database := {
  sessions : gmap positive ChatSession;
  messages : gmap positive ChatMessage;
  herd : gmap positive Cattle
}.

(** [ChatSession.objects.create(user=..., context=...)]: the row gets a
    primary key that no row of the table has. *)
Definition create_session (user : User) (context : Context) (d : Database)
  : positive * Database :=
  let pk := fresh (dom (sessions d)) in
  (pk, {| sessions := <[pk := {| session_user := user_id user; session_context := context |}]>
                        (sessions d);
          messages := messages d;
          herd := herd d |}).

(** [ChatMessage.objects.create(session=..., role=..., text=..., location=...)];
    [feedback] takes its default, 0. *)
Definition create_message (session : positive) (role : Role) (text location : string)
  (d : Database) : positive * Database :=
  let pk := fresh (dom (messages d)) in
  (pk, {| sessions := sessions d;
          messages := <[pk := {| message_session := session; message_role := role;
                                 message_text := text; message_location := location;
                                 message_feedback := 0 |}]> (messages d);
          herd := herd d |}).

(** [session.context = ...; session.save(update_fields=["context"])]. *)
Definition save_context (session : positive) (context : Context) (d : Database) : Database :=
  {| sessions := alter (fun s => {| session_user := session_user s;
                                    session_context := context |}) session (sessions d);
     messages := messages d;
     herd := herd d |}.

(** [ChatMessage.objects.filter(session=session)]. *)
Definition messages_of (session : positive) (d : Database) : gmap positive ChatMessage :=
  filter (fun item => message_session item.2 = session) (messages d).

(** The two keys of [request.session] that the views use. *)
Record WebSession := {
  chatbot_session_id : option positive;
  chatbot_location_label : option string
}.

Definition set_session_id (pk : positive) (s : WebSession) : WebSession :=
  {| chatbot_session_id := Some pk; chatbot_location_label := chatbot_location_label s |}.

Definition set_location_label (label : string) (s : WebSession) : WebSession :=
  {| chatbot_session_id := chatbot_session_id s; chatbot_location_label := Some label |}.

(** ** The language-model client, seen from the view

    [call_groq_sync] talks to a remote service; the view only needs its
    result.  Every call is recorded. *)

Record GroqResponse := {
  reply : option string;
  error_code : option string
}.

Record GroqCall := {
  groq_message : string;
  groq_session_id : positive;
  groq_location : string;
  groq_context : Context
}.

Record World := {
  db : Database;
  web : WebSession;
  groq_calls : list GroqCall
}.

(** ** The chat view ([views.py], lines 45-143) *)

Record Request := {
  request_user : User;
  request_message : string;          (* data.get("message") or "" *)
  request_context : PyAny;           (* data.get("context") *)
  request_geo_label : option string  (* what the GeoIP lookup yields, if anything *)
}.

(** One constructor for each [return] of the view, and one for an
    exception that leaves it. *)
Inductive Response :=
| EmptyMessage
| Forbidden
| Greeting (text : string) (bot_message_id session_id : positive)
| Refusal (reason text : string) (bot_message_id session_id : positive)
| ScopeNarrowing (text : string) (bot_message_id session_id : positive)
| ModelError (code : option string) (session_id : positive)
| Answer (text : string) (bot_message_id session_id : positive)
| ServerError.

(** The JSON body and the status code that go with a response. *)
Record Json := {
  json_status : Z;
  json_ok : bool;
  json_error : option string;
  json_reply : option string;
  json_bot_message_id : option positive;
  json_session_id : option positive;
  json_code : option string
}.

Definition reply_json (text : string) (bot_message_id session_id : positive) : Json :=
  {| json_status := 200; json_ok := true; json_error := None; json_reply := Some text;
     json_bot_message_id := Some bot_message_id; json_session_id := Some session_id;
     json_code := None |}.

Definition error_json (status : Z) (error : string) (session_id : option positive)
  (code : option string) : Json :=
  {| json_status := status; json_ok := false; json_error := Some error; json_reply := None;
     json_bot_message_id := None; json_session_id := session_id; json_code := code |}.

(** An uncaught exception gives the framework's error page, which has
    no JSON body. *)
Definition json_of (r : Response) : option Json :=
  match r with
  | EmptyMessage => Some (error_json 400 "empty_message" None None)
  | Forbidden => Some (error_json 403 "forbidden" None None)
  | Greeting text b s | Refusal _ text b s | ScopeNarrowing text b s | Answer text b s =>
      Some (reply_json text b s)
  | ModelError code s =>
      Some (error_json (match code with Some _ => 502 | None => 500 end)
              "model_error" (Some s) code)
  | ServerError => None
  end.

Section Views.
Context (K : constants).
Context (float_repr : pyfloat -> string).
(** [None]: the import of [embedding_filter] failed. *)
Context (embedding_backend : option (string -> option pyfloat)).
Context (ALLOWED_SIMILARITY : pyfloat).
(** [None]: the client raised. *)
Context (call_groq_sync : Database -> GroqCall -> option GroqResponse).

(** [get_location_label] ([services.py], lines 98-130): the cached label
    if there is one, else the looked-up label or the default, cached. *)
Definition get_location_label (geo_label : option string) (s : WebSession)
  : string * WebSession :=
  let lookup :=
    match geo_label with
    | Some label =>
        if nonempty label then (label, set_location_label label s)
        else (DEFAULT_LOCATION_LABEL K, set_location_label (DEFAULT_LOCATION_LABEL K) s)
    | None => (DEFAULT_LOCATION_LABEL K, set_location_label (DEFAULT_LOCATION_LABEL K) s)
    end in
  match chatbot_location_label s with
  | Some cached => if nonempty cached then (cached, s) else lookup
  | None => lookup
  end.

(** Lines 59-65: the active session of the user, or a new one. *)
Definition active_session (user : User) (w : World) : positive * World :=
  let found :=
    match chatbot_session_id (web w) with
    | Some active_session_id =>
        match sessions (db w) !! active_session_id with
        | Some s =>
            if bool_decide (session_user s = user_id user)
            then Some active_session_id else None
        | None => None
        end
    | None => None
    end in
  match found with
  | Some pk => (pk, w)
  | None =>
      let '(pk, d) := create_session user ∅ (db w) in
      (pk, {| db := d; web := set_session_id pk (web w); groq_calls := groq_calls w |})
  end.

(** Lines 70-81: which session the message goes to and with which
    context, given the normalised and enriched incoming context. *)
Definition apply_context (user : User) (session : positive) (incoming_context : Context)
  (w : World) : positive * Context * World :=
  let context :=
    match sessions (db w) !! session with
    | Some s => session_context s
    | None => ∅
    end in
  if negb (bool_decide (incoming_context = ∅)) then
    if negb (Py.dict_eqb context incoming_context) then
      if negb (bool_decide (messages_of session (db w) = ∅)) then
        let '(pk, d) := create_session user incoming_context (db w) in
        (pk, incoming_context,
         {| db := d; web := set_session_id pk (web w); groq_calls := groq_calls w |})
      else
        (session, incoming_context,
         {| db := save_context session incoming_context (db w);
            web := web w; groq_calls := groq_calls w |})
    else (session, incoming_context, w)
  else (session, context, w).

(** Lines 59-81.  [None] in the first component: enriching the context
    raised. *)
Definition resolve_session (user : User) (raw : PyAny) (w : World)
  : option (positive * Context) * World :=
  let '(session, w) := active_session user w in
  let incoming_context := normalise_context float_repr raw in
  match augment_context_with_cattle (herd (db w)) user incoming_context with
  | None => (None, w)
  | Some incoming_context =>
      let '(session, context, w) := apply_context user session incoming_context w in
      (Some (session, context), w)
  end.

(** Line 85. *)
Definition bovine_hint (lowered : string) : bool :=
  Str.any_in (BOVINE_CORE_TERMS K) lowered.

(** Lines 88-97. *)
Definition embedding_pass (msg : string) : bool :=
  match embedding_backend with
  | Some best_score =>
      match is_cattle_related best_score ALLOWED_SIMILARITY msg with
      | Some (passed, _) => passed
      | None => false
      end
  | None => false
  end.

Definition with_db (d : Database) (w : World) : World :=
  {| db := d; web := web w; groq_calls := groq_calls w |}.

(** A bot message is stored and its text is sent back. *)
Definition bot_reply (make : string -> positive -> positive -> Response)
  (session : positive) (text location : string) (w : World) : Response * World :=
  let '(bot_pk, d) := create_message session RoleBot text location (db w) in
  (make text bot_pk session, with_db d w).

(** Lines 83-143. *)
Definition respond (msg : string) (geo_label : option string)
  (session : positive) (context : Context) (w : World) : Response * World :=
  let has_context := negb (bool_decide (context = ∅)) in
  let lowered := Str.lower msg in
  let hint := bovine_hint lowered in
  let keyword_hit := keyword_match K lowered in
  let passed := embedding_pass msg in
  let '(location_label, ws) := get_location_label geo_label (web w) in
  let w := {| db := db w; web := ws; groq_calls := groq_calls w |} in
  let '(_, d) := create_message session RoleUser msg location_label (db w) in
  let w := with_db d w in
  if matches_greeting K lowered then
    match greeting_for_context float_repr (if has_context then context else ∅) with
    | Some welcome => bot_reply Greeting session welcome location_label w
    | None => (ServerError, w)
    end
  else
    match should_refuse K msg (has_context || hint) with
    | Some refusal_reason =>
        bot_reply (Refusal refusal_reason) session
          (build_refusal_reply refusal_reason) location_label w
    | None =>
        if negb (has_context || keyword_hit || passed) then
          bot_reply ScopeNarrowing session scope_msg location_label w
        else
          let call := {| groq_message := msg; groq_session_id := session;
                         groq_location := location_label; groq_context := context |} in
          let w' := {| db := db w; web := web w; groq_calls := groq_calls w ++ [call] |} in
          match call_groq_sync (db w) call with
          | None => (ServerError, w')
          | Some groq_response =>
              match reply groq_response with
              | None => (ModelError (error_code groq_response) session, w')
              | Some text => bot_reply Answer session (beautify_reply text) location_label w'
              end
          end
    end.

Definition chat_api (request : Request) (w : World) : Response * World :=
  let msg := Str.strip (request_message request) in
  if String.eqb msg "" then (EmptyMessage, w)
  else if negb (is_farmer (request_user request)) then (Forbidden, w)
  else
    match resolve_session (request_user request) (request_context request) w with
    | (None, w) => (ServerError, w)
    | (Some (session, context), w) =>
        respond msg (request_geo_label request) session context w
    end.

End Views.

(** ** The feedback view ([views.py], lines 154-179) *)

(** The two fields of the posted JSON object, [VNone] for a missing one. *)
Record FeedbackPayload := {
  payload_message_id : PyVal;
  payload_feedback : PyVal
}.

Inductive FeedbackResponse :=
| InvalidPayload        (* 400 invalid_payload *)
| NotFound              (* 404 not_found *)
| FeedbackForbidden     (* 403 forbidden *)
| InvalidFeedback       (* 400 invalid_feedback *)
| FeedbackSaved         (* 200 ok *)
| FeedbackServerError.  (* an exception leaves the view *)

(** The first [try]: both fields must convert with [int]; any exception
    gives [None].  A body that is not a JSON object is [None] from the
    start. *)
Definition parse_feedback (body : option FeedbackPayload) : option (Z * Z) :=
  match body with
  | Some data =>
      match Py.int (payload_message_id data), Py.int (payload_feedback data) with
      | Py.IntOk mid, Py.IntOk fb => Some (mid, fb)
      | _, _ => None
      end
  | None => None
  end.

(** [ChatMessage.objects.get(pk=mid, role='bot')]. *)
Definition get_bot_message (mid : Z) (d : Database) : option (positive * ChatMessage) :=
  if 0 <? mid then
    match messages d !! Z.to_pos mid with
    | Some m =>
        if bool_decide (message_role m = RoleBot) then Some (Z.to_pos mid, m) else None
    | None => None
    end
  else None.

(** [m.feedback = fb; m.save()]. *)
Definition save_feedback (pk : positive) (fb : Z) (d : Database) : Database :=
  {| sessions := sessions d;
     messages := alter (fun m => {| message_session := message_session m;
                                    message_role := message_role m;
                                    message_text := message_text m;
                                    message_location := message_location m;
                                    message_feedback := fb |}) pk (messages d);
     herd := herd d |}.

Definition feedback (user : User) (body : option FeedbackPayload) (d : Database)
  : FeedbackResponse * Database :=
  match parse_feedback body with
  | None => (InvalidPayload, d)
  | Some (mid, fb) =>
      match get_bot_message mid d with
      | None => (NotFound, d)
      | Some (pk, m) =>
          match sessions d !! message_session m with
          | None => (FeedbackServerError, d)
          | Some s =>
              if negb (bool_decide (session_user s = user_id user)) then (FeedbackForbidden, d)
              else if negb (bool_decide (fb ∈ [-1; 0; 1])) then (InvalidFeedback, d)
              else (FeedbackSaved, save_feedback pk fb d)
          end
      end
  end.

(** ** A sample of the constants

    Modelled from the spec: [chatbot/constants.py] is not among the
    sources.  The terms are those the spec and the tests use in their
    examples ("my cow has fever", "I want to end my life", "I have a high
    fever and need medicine suggestions"); the greeting pattern finds a
    message that starts with a salutation, the keyword pattern one that
    names a dairy animal or a common complaint. *)

Definition sample_constants : constants :=
  {| BOVINE_CORE_TERMS := ["cow"; "buffalo"; "calf"; "heifer"; "bull"; "cattle"];
     SELF_HARM_TERMS := ["end my life"; "kill myself"; "suicide"];
     VIOLENCE_TERMS := ["kill"; "poison"; "weapon"];
     HUMAN_HEALTH_TERMS := ["fever"; "headache"; "chest pain"];
     HUMAN_HEALTH_CUES := ["i have"; "i am"; "my fever"];
     GREETING_PATTERN := fun s =>
       (String.prefix "hello" s || String.prefix "namaste" s || String.eqb s "hi")%bool;
     CATTLE_KEYWORD_PATTERN := Str.any_in ["cow"; "buffalo"; "cattle"; "milk"; "mastitis"; "fodder"];
     DEFAULT_LOCATION_LABEL := "India" |}.

(** A float is printed with its fraction written out; enough for the
    samples, where no float is printed. *)
Definition sample_float_repr (f : pyfloat) : string :=
  match f with
  | Fin n d => Str.of_Z n ++ "/" ++ Str.of_Z (Z.pos d)
  | Inf true => "-inf"
  | Inf false => "inf"
  | NaN => "nan"
  end.

(** A client that always answers. *)
Definition sample_groq (d : Database) (call : GroqCall) : option GroqResponse :=
  Some {| reply := Some "Keep the udder clean. Call your veterinarian."; error_code := None |}.

Definition farmer : User := {| user_id := 1; is_farmer := true |}.

Definition empty_world : World :=
  {| db := {| sessions := ∅; messages := ∅; herd := ∅ |};
     web := {| chatbot_session_id := None; chatbot_location_label := None |};
     groq_calls := [] |}.

Definition sample_chat_api : Request -> World -> Response * World :=
  chat_api sample_constants sample_float_repr None (Fin 65 100) sample_groq.

(** ** Notions used in the statements *)

(** A message holds [term] without regard to case when some stretch of
    it reads [term] once lowered.  The classifier looks for the terms in
    the lowered message, so this is what it can find. *)
Definition occurs_ignoring_case (term message : string) : Prop :=
  exists before found after,
    message = before ++ found ++ after /\ Str.lower found = term.

(** No value is the empty string or NaN. *)
Definition clean_values (c : Context) : Prop :=
  map_Forall (fun _ v => v <> VStr "" /\ v <> VFloat NaN) c.

#[global] Instance clean_values_dec (c : Context) : Decision (clean_values c).
Proof. unfold clean_values. apply _. Defined.



(** The six fields that the enrichment fills in. *)
Definition enrichable_keys : list string :=
  ["name"; "tag_number"; "breed"; "age_years"; "milk_yield"; "last_vaccination_date"].

(** What the record has to offer for a key. *)
Definition stored_value (c : Cattle) (key : string) : option PyVal :=
  if String.eqb key "name" then Some (VStr (cattle_name c))
  else if String.eqb key "tag_number" then Some (VStr (cattle_tag_number c))
  else if String.eqb key "breed" then Some (VStr (cattle_breed c))
  else if String.eqb key "age_years" then Some (option_to_val VInt (cattle_age_years c))
  else if String.eqb key "milk_yield" then
    match cattle_daily_milk_yield c with
    | Some milk =>
        Some (if Float.is_integer milk then VInt (Float.trunc milk)
              else VFloat (Float.round2 milk))
    | None => None
    end
  else if String.eqb key "last_vaccination_date" then
    match cattle_last_vaccination_date c with
    | Some iso => Some (VStr iso)
    | None => None
    end
  else None.

(** What the final loop leaves of a value. *)
Definition unless_blank (v : PyVal) : option PyVal :=
  if Py.is_blank v then None else Some v.

Definition gauri : Cattle :=
  {| cattle_owner := 1; cattle_name := "Gauri"; cattle_tag_number := "T-101";
     cattle_breed := "Gir"; cattle_age_years := Some 5;
     cattle_daily_milk_yield := Some (Fin 125 10);
     cattle_last_vaccination_date := None |}.

Definition sample_herd : gmap positive Cattle := {[ 5%positive := gauri ]}.

Definition jersey_context : Context :=
  <[ "animal_id" := VInt 5 ]> {[ "breed" := VStr "Jersey" ]}.

Definition blank_breed_context : Context :=
  normalise_context sample_float_repr
    (PyDict (<[ "animal_id" := VInt 5 ]> {[ "breed" := VStr " " ]})).

(** The semantic filter lets nothing through: it is not available, it
    raises, or the score is below the threshold. *)
Definition semantic_filter_fails
  (backend : option (string -> option pyfloat)) (threshold : pyfloat) (msg : string) : Prop :=
  match backend with
  | None => True
  | Some best_score =>
      forall best, best_score msg = Some best -> Float.leb threshold best = false
  end.

(** The session id that a response carries. *)
Definition response_session_id (r : Response) : option positive :=
  match json_of r with
  | Some j => json_session_id j
  | None => None
  end.

(** From [w] to [w']: the sessions and the pointer to the active one
    are the same, and so are the messages of every session but [session]. *)
Definition only_adds_to (session : positive) (w w' : World) : Prop :=
  sessions (db w') = sessions (db w) /\
  chatbot_session_id (web w') = chatbot_session_id (web w) /\
  forall other, other <> session -> messages_of other (db w') = messages_of other (db w).


(** *** Sample requests and worlds *)

Definition request_of (user : User) (message : string) (context : PyAny) : Request :=
  {| request_user := user; request_message := message; request_context := context;
     request_geo_label := None |}.

Definition hello_request : Request := request_of farmer "hello" PyNotDict.

Definition weather_request : Request := request_of farmer "what is the weather today" PyNotDict.

Definition numeric_name_request : Request :=
  request_of farmer "hello" (PyDict {[ "name" := VInt 5 ]}).


Definition first_message : ChatMessage :=
  {| message_session := 1; message_role := RoleUser; message_text := "my cow has fever";
     message_location := "India"; message_feedback := 0 |}.

(** The user has an active session, with one message in it. *)
Definition world_with (context : Context) : World :=
  {| db := {| sessions := {[ 1%positive := {| session_user := 1; session_context := context |} ]};
              messages := {[ 1%positive := first_message ]};
              herd := ∅ |};
     web := {| chatbot_session_id := Some 1%positive; chatbot_location_label := Some "India" |};
     groq_calls := [] |}.

Definition gauri_world : World :=
  world_with (<[ "name" := VStr "Gauri" ]> {[ "source" := VStr "manual" ]}).

Definition tulsi_request : Request :=
  request_of farmer "my cow has mastitis" (PyDict {[ "name" := VStr "Tulsi" ]}).



Definition bot_message : ChatMessage :=
  {| message_session := 1; message_role := RoleBot; message_text := "Keep the udder clean.";
     message_location := "India"; message_feedback := 0 |}.

Definition feedback_db : Database :=
  {| sessions := {[ 1%positive := {| session_user := 1; session_context := ∅ |} ]};
     messages := <[ 2%positive := bot_message ]> {[ 1%positive := first_message ]};
     herd := ∅ |}.

Definition stranger : User := {| user_id := 2; is_farmer := true |}.

Definition feedback_body (message_id score : Z) : option FeedbackPayload :=
  Some {| payload_message_id := VInt message_id; payload_feedback := VInt score |}.


(** ** Notions used in the further properties *)

Definition greeting_in_distress_request : Request :=
  request_of farmer "Hello, I want to end my life" PyNotDict.



(** A context that points at an animal of the sample herd and one that
    points at no animal of the user. *)
Definition gauri_context : Context :=
  <[ "animal_id" := VStr "5" ]> {[ "issue" := VStr "Mastitis" ]}.

Definition unknown_animal_context : Context :=
  <[ "animal_id" := VInt 7 ]> (<[ "breed" := VStr "Jersey" ]> {[ "source" := VStr "saved" ]}).


(** A message with another feedback value. *)
Definition with_feedback (fb : Z) (m : ChatMessage) : ChatMessage :=
  {| message_session := message_session m; message_role := message_role m;
     message_text := message_text m; message_location := message_location m;
     message_feedback := fb |}.

Definition numeric_name_context : Context :=
  <[ "name" := VInt 5 ]> {[ "breed" := VStr "Gir" ]}.

(** From [w] to [w']: the herd is the same, every message is still
    there as it was, every session is still there with its user, and a
    session that had a message has the context it had. *)
Definition history_kept (w w' : World) : Prop :=
  herd (db w') = herd (db w) /\
  (forall pk m, messages (db w) !! pk = Some m -> messages (db w') !! pk = Some m) /\
  (forall sid s, sessions (db w) !! sid = Some s ->
     exists s', sessions (db w') !! sid = Some s' /\ session_user s' = session_user s /\
                (messages_of sid (db w) <> ∅ -> session_context s' = session_context s)).

Definition new_message (session : positive) (role : Role) (text location : string)
  : ChatMessage :=
  {| message_session := session; message_role := role; message_text := text;
     message_location := location; message_feedback := 0 |}.

(** The text, the key of the bot message and the session of a reply. *)
Definition reply_parts (r : Response) : option (string * positive * positive) :=
  match r with
  | Greeting text b s | Refusal _ text b s | ScopeNarrowing text b s | Answer text b s =>
      Some (text, b, s)
  | _ => None
  end.


(** A client that reaches the model and gets no text. *)
Definition failing_groq (d : Database) (call : GroqCall) : option GroqResponse :=
  Some {| reply := None; error_code := Some "http_503" |}.

(** A filter whose model cannot be loaded. *)
Definition broken_filter (query : string) : option pyfloat := None.


(** * Properties *)

(** ** Sample evaluations *)

Example lower_sample : Str.lower "My COW, 2 Calves!" = "my cow, 2 calves!".
Proof. reflexivity. Qed.

Example strip_sample : Str.strip "  a b
 " = "a b".
Proof. reflexivity. Qed.

Example contains_sample :
  Str.contains "cow" "my cow has fever" = true /\
  Str.contains "cow" "my goat" = false /\
  Str.contains "" "" = true.
Proof. repeat split; reflexivity. Qed.

Example of_Z_sample : Str.of_Z 1 = "1" /\ Str.of_Z (-12) = "-12" /\ Str.of_Z 0 = "0".
Proof. repeat split; reflexivity. Qed.

Example float_of_string_sample :
  Float.of_string " -1_0.5e1 " = Some (Fin (-105) 1) /\
  Float.of_string "1e-2" = Some (Fin 1 100) /\
  Float.of_string "-Infinity" = Some (Inf true) /\
  Float.of_string "1__0" = None /\
  Float.of_string "six" = None.
Proof. repeat split; reflexivity. Qed.

Example round2_sample :
  Float.round2 (Fin 125 1000) = Fin 12 100 /\
  Float.round2 (Fin (-135) 1000) = Fin (-14) 100 /\
  Float.round2 (Fin 5999 1000) = Fin 600 100.
Proof. repeat split; reflexivity. Qed.

Example beautify_sample :
  beautify_reply "Check the udder. Apply antiseptic. Watch for fever."
  = "Check the udder.
- Apply antiseptic.
- Watch for fever.".
Proof. reflexivity. Qed.

(** ** Strings *)

Section StringFacts.

Lemma prefix_app (n b : string) : String.prefix n (n ++ b) = true.
Proof.
  induction n as [|c n IH]; simpl.
  - now destruct b.
  - destruct (ascii_dec c c) as [_|Hc]; [exact IH | now elim Hc].
Qed.

Lemma prefix_split (n h : string) :
  String.prefix n h = true -> exists b, h = n ++ b.
Proof.
  revert h. induction n as [|c n IH]; intros h Hp.
  - now exists h.
  - destruct h as [|c' h]; simpl in Hp; [discriminate|].
    destruct (ascii_dec c c') as [->|]; [|discriminate].
    destruct (IH _ Hp) as [b ->]. now exists b.
Qed.

Lemma contains_prefix (n h : string) :
  String.prefix n h = true -> Str.contains n h = true.
Proof. intros Hp. destruct h; cbn [Str.contains]; rewrite Hp; reflexivity. Qed.

Lemma contains_cons (n : string) (c : ascii) (h : string) :
  Str.contains n h = true -> Str.contains n (String c h) = true.
Proof. intros Hc. cbn [Str.contains]. rewrite Hc. apply orb_true_r. Qed.

(** [needle in hay] holds exactly when [hay] has [needle] somewhere. *)
Lemma contains_app (n a b : string) : Str.contains n (a ++ n ++ b) = true.
Proof.
  induction a as [|c a IH].
  - change (Str.contains n (n ++ b) = true). apply contains_prefix, prefix_app.
  - change (Str.contains n (String c (a ++ n ++ b)) = true). apply contains_cons, IH.
Qed.

Lemma contains_split (n h : string) :
  Str.contains n h = true -> exists a b, h = a ++ n ++ b.
Proof.
  induction h as [|c h IH]; cbn [Str.contains]; intros Hc.
  - rewrite orb_false_r in Hc. destruct (prefix_split _ _ Hc) as [b ->].
    now exists EmptyString, b.
  - apply orb_true_iff in Hc as [Hp|Hc].
    + destruct (prefix_split _ _ Hp) as [b ->]. now exists EmptyString, b.
    + destruct (IH Hc) as (a & b & ->). now exists (String c a), b.
Qed.

Lemma lower_app (a b : string) : Str.lower (a ++ b) = Str.lower a ++ Str.lower b.
Proof. induction a as [|c a IH]; simpl; [reflexivity | now rewrite IH]. Qed.


End StringFacts.

Lemma occurs_lowered (term message : string) :
occurs_ignoring_case term message -> Str.contains term (Str.lower message) = true.
Proof.
intros (before & found & after & -> & <-).
rewrite !lower_app. apply contains_app.
Qed.

(** ** The safety classifier *)

Section ClassifierFacts.
Context (K : constants).

Lemma self_harm_found (message : string) (flag : bool) (term : string) :
  In term (SELF_HARM_TERMS K) ->
  Str.contains term (Str.lower message) = true ->
  should_refuse K message flag = Some "self_harm".
Proof.
  intros Hin Hc. unfold should_refuse.
  destruct (find _ (SELF_HARM_TERMS K)) eqn:Hfind; [reflexivity|].
  pose proof (find_none _ _ Hfind term Hin) as Hno. simpl in Hno. congruence.
Qed.

(** C1.  A message that holds a self-harm term, in any mix of
    capitals, is refused with the reason "self_harm", whether the flag
    for cattle context is set or not and whatever else it says. *)
Theorem should_refuse_self_harm
  (message : string) (has_cattle_context : bool) (term : string) :
  In term (SELF_HARM_TERMS K) ->
  occurs_ignoring_case term message ->
  should_refuse K message has_cattle_context = Some "self_harm".
Proof.
  intros Hin Hocc. eapply self_harm_found; [exact Hin|].
  now apply occurs_lowered.
Qed.


(** C5.  A lowered message that holds "my <term>" for a bovine core
    term never counts as a human-health request, whatever health terms
    and cues it also holds. *)
Theorem bovine_possessive_blocks_human_health (lowered term : string) :
  In term (BOVINE_CORE_TERMS K) ->
  Str.contains ("my " ++ term) lowered = true ->
  _has_human_health_intent K lowered = false.
Proof.
  intros Hin Hc. unfold _has_human_health_intent.
  replace (existsb _ (BOVINE_CORE_TERMS K)) with true; [reflexivity|].
  symmetry. apply existsb_exists. now exists term.
Qed.

End ClassifierFacts.

Lemma should_refuse_self_harm_witness :
should_refuse sample_constants "I have CATTLE but I want to End My Life" true
  = Some "self_harm" /\
should_refuse sample_constants "I have CATTLE but I want to End My Life" false
  = Some "self_harm".
Proof.
assert (Hocc : occurs_ignoring_case "end my life" "I have CATTLE but I want to End My Life").
{ exists "I have CATTLE but I want to ", "End My Life", "". split; reflexivity. }
split; apply (should_refuse_self_harm sample_constants _ _ "end my life");
  solve [ simpl; tauto | exact Hocc ].
Defined.

Lemma bovine_possessive_blocks_human_health_witness :
Str.any_in (HUMAN_HEALTH_TERMS sample_constants) "my cow has fever and i have no vet" = true /\
Str.any_in (HUMAN_HEALTH_CUES sample_constants) "my cow has fever and i have no vet" = true /\
_has_human_health_intent sample_constants "my cow has fever and i have no vet" = false.
Proof.
split; [reflexivity|]. split; [reflexivity|].
apply (bovine_possessive_blocks_human_health sample_constants _ "cow").
- simpl; tauto.
- reflexivity.
Defined.

(** ** Context normalisation *)

Section NormaliseFacts.
Context (float_repr : pyfloat -> string).

Local Abbreviation normalise := (normalise_context float_repr).
Local Abbreviation item := (normalise_item float_repr).







End NormaliseFacts.


(** ** Idempotence of the normalisation *)

Section StripFacts.





End StripFacts.

Section FloatFacts.






Lemma round2_not_nan (x : pyfloat) : Float.round2 x = NaN -> x = NaN.
Proof. destruct x; simpl; congruence. Qed.


End FloatFacts.

Section Idempotence.
Context (float_repr : pyfloat -> string).

Local Abbreviation normalise := (normalise_context float_repr).
Local Abbreviation item := (normalise_item float_repr).








End Idempotence.



(** ** Context enrichment *)

Section AugmentFacts.

Lemma setdefault_lookup_eq (key : string) (value : PyVal) (d : Context) :
  Py.setdefault key value d !! key = Some (default value (d !! key)).
Proof.
  unfold Py.setdefault. destruct (d !! key) eqn:Hd; simpl.
  - exact Hd.
  - apply lookup_insert_eq.
Qed.

Lemma setdefault_lookup_ne (key other : string) (value : PyVal) (d : Context) :
  key <> other -> Py.setdefault key value d !! other = d !! other.
Proof.
  intros Hne. unfold Py.setdefault. destruct (d !! key); [reflexivity|].
  now apply lookup_insert_ne.
Qed.

Lemma prune_lookup (d : Context) (key : string) :
  prune d !! key = d !! key ≫= unless_blank.
Proof.
  unfold prune, unless_blank.
  destruct (d !! key) as [v|] eqn:Hd; simpl.
  - destruct (Py.is_blank v) eqn:Hb.
    + apply map_lookup_filter_None. right. intros w Hw. simpl. congruence.
    + apply map_lookup_filter_Some. split; [exact Hd | exact Hb].
  - apply map_lookup_filter_None. now left.
Qed.

Lemma enrichable_cases (key : string) :
  key ∈ enrichable_keys ->
  key = "name" \/ key = "tag_number" \/ key = "breed" \/ key = "age_years" \/
  key = "milk_yield" \/ key = "last_vaccination_date".
Proof.
  unfold enrichable_keys. intros Hkey.
  repeat (apply elem_of_cons in Hkey as [Hkey|Hkey]; [tauto|]).
  now apply elem_of_nil in Hkey.
Qed.

(** The enriched dict at one of the six keys: the caller's value when
    there is one, else the record's. *)
Lemma enrich_from_lookup (pk : positive) (c : Cattle) (d : Context) (key : string) :
  key ∈ enrichable_keys ->
  enrich_from pk c d !! key =
    match d !! key with
    | Some v => Some v
    | None => stored_value c key
    end.
Proof.
  intros Hkey. unfold enrich_from.
  destruct (enrichable_cases key Hkey) as [->|[->|[->|[->|[->| ->]]]]];
    cbn [stored_value String.eqb Ascii.eqb Bool.eqb];
    destruct (cattle_daily_milk_yield c) as [milk|];
    destruct (cattle_last_vaccination_date c) as [iso|];
    repeat first
      [ rewrite setdefault_lookup_eq
      | rewrite setdefault_lookup_ne by discriminate
      | rewrite lookup_insert_ne by discriminate ];
    try (destruct (d !! _); simpl; try reflexivity;
         destruct (Float.is_integer milk); reflexivity).
Qed.

End AugmentFacts.

Section AugmentTheorem.

Lemma augment_found (herd : gmap positive Cattle) (user : User) (context : Context)
  (animal_id : PyVal) (animal_pk : Z) (pk : positive) (c : Cattle) :
  context !! "animal_id" = Some animal_id ->
  Py.is_blank animal_id = false ->
  Py.int animal_id = Py.IntOk animal_pk ->
  cattle_get herd animal_pk user = Some (pk, c) ->
  augment_context_with_cattle herd user context = Some (prune (enrich_from pk c context)).
Proof.
  intros Hid Hblank Hint Hget. unfold augment_context_with_cattle.
  rewrite bool_decide_eq_false_2.
  2:{ intros ->. now rewrite lookup_empty in Hid. }
  rewrite Hid, Hblank, Hint.
  destruct (animal_pk =? 0) eqn:Hz.
  - apply Z.eqb_eq in Hz. subst animal_pk. unfold cattle_get in Hget. simpl in Hget.
    discriminate.
  - now rewrite Hget.
Qed.

(** C6, as amended.  When the animal is found, each of name,
    tag_number, breed, age_years, milk_yield and last_vaccination_date
    that the caller supplied with a value other than None and the empty
    string keeps that value; one supplied as None or as the empty string
    is removed; one that the caller left out takes the record's value,
    if the record has one that is not blank. *)
Theorem augment_keeps_supplied (herd : gmap positive Cattle) (user : User)
  (context : Context) (animal_id : PyVal) (animal_pk : Z) (pk : positive) (c : Cattle) :
  context !! "animal_id" = Some animal_id ->
  Py.is_blank animal_id = false ->
  Py.int animal_id = Py.IntOk animal_pk ->
  cattle_get herd animal_pk user = Some (pk, c) ->
  exists enriched,
    augment_context_with_cattle herd user context = Some enriched /\
    forall key, key ∈ enrichable_keys ->
      enriched !! key =
        match context !! key with
        | Some supplied => unless_blank supplied
        | None => stored_value c key ≫= unless_blank
        end.
Proof.
  intros Hid Hblank Hint Hget.
  exists (prune (enrich_from pk c context)). split.
  - eapply augment_found; eassumption.
  - intros key Hkey. rewrite prune_lookup, (enrich_from_lookup _ _ _ _ Hkey).
    destruct (context !! key); reflexivity.
Qed.

End AugmentTheorem.


Lemma augment_keeps_supplied_witness :
exists enriched,
  augment_context_with_cattle sample_herd farmer jersey_context = Some enriched /\
  enriched !! "breed" = Some (VStr "Jersey") /\
  enriched !! "name" = Some (VStr "Gauri").
Proof.
destruct (augment_keeps_supplied sample_herd farmer jersey_context (VInt 5) 5 5%positive gauri)
  as (enriched & Heq & Hkeys).
- vm_compute. reflexivity.
- vm_compute. reflexivity.
- vm_compute. reflexivity.
- vm_compute. reflexivity.
- exists enriched. split; [exact Heq|]. split.
  + rewrite (Hkeys "breed").
    * vm_compute. reflexivity.
    * apply (bool_decide_unpack _). vm_compute. exact I.
  + rewrite (Hkeys "name").
    * vm_compute. reflexivity.
    * apply (bool_decide_unpack _). vm_compute. exact I.
Defined.

(** C6, as stated, fails: a breed supplied as spaces reaches the
  enrichment as the empty string; it is not replaced by the record's
  breed, and it is not kept either. *)
Lemma augment_drops_blank_supplied :
blank_breed_context !! "breed" = Some (VStr "") /\
exists enriched,
  augment_context_with_cattle sample_herd farmer blank_breed_context = Some enriched /\
  enriched !! "animal_id" = Some (VInt 5) /\
  enriched !! "name" = Some (VStr "Gauri") /\
  enriched !! "breed" = None /\
  enriched !! "breed" <> blank_breed_context !! "breed".
Proof.
split; [vm_compute; reflexivity|].
exists (prune (enrich_from 5%positive gauri blank_breed_context)).
split; [vm_compute; reflexivity|].
split; [vm_compute; reflexivity|].
split; [vm_compute; reflexivity|].
split; [vm_compute; reflexivity|].
vm_compute. discriminate.
Qed.

(** ** The chat view *)

Section ViewFacts.
Context (K : constants).
Context (float_repr : pyfloat -> string).
Context (embedding_backend : option (string -> option pyfloat)).
Context (ALLOWED_SIMILARITY : pyfloat).
Context (call_groq_sync : Database -> GroqCall -> option GroqResponse).

Local Abbreviation chat :=
  (chat_api K float_repr embedding_backend ALLOWED_SIMILARITY call_groq_sync).
Local Abbreviation respond' :=
  (respond K float_repr embedding_backend ALLOWED_SIMILARITY call_groq_sync).
Local Abbreviation resolve := (resolve_session float_repr).

Lemma active_session_groq_calls (user : User) (w : World) :
  groq_calls (snd (active_session user w)) = groq_calls w.
Proof.
  unfold active_session.
  destruct (chatbot_session_id (web w)) as [sid|]; [|reflexivity].
  destruct (sessions (db w) !! sid) as [s|]; [|reflexivity].
  destruct (bool_decide _); reflexivity.
Qed.

Lemma apply_context_groq_calls (user : User) (session : positive) (incoming : Context)
  (w : World) :
  groq_calls (snd (apply_context user session incoming w)) = groq_calls w.
Proof.
  unfold apply_context.
  destruct (negb (bool_decide (incoming = ∅))); [|reflexivity].
  destruct (negb (Py.dict_eqb _ incoming)); [|reflexivity].
  destruct (negb (bool_decide (messages_of session (db w) = ∅))); reflexivity.
Qed.

Lemma resolve_session_groq_calls (user : User) (raw : PyAny) (w : World) :
  groq_calls (snd (resolve user raw w)) = groq_calls w.
Proof.
  unfold resolve_session.
  pose proof (active_session_groq_calls user w) as Ha.
  destruct (active_session user w) as [session w1]. simpl in Ha.
  destruct (augment_context_with_cattle _ _ _) as [incoming|]; [|exact Ha].
  pose proof (apply_context_groq_calls user session incoming w1) as Hb.
  destruct (apply_context user session incoming w1) as [[session' context] w2].
  simpl in *. congruence.
Qed.

(** The view, once the message and the user have been accepted. *)
Lemma chat_api_accepted (request : Request) (w : World) :
  Str.strip (request_message request) <> "" ->
  is_farmer (request_user request) = true ->
  chat request w =
    match resolve (request_user request) (request_context request) w with
    | (None, w1) => (ServerError, w1)
    | (Some (session, context), w1) =>
        respond' (Str.strip (request_message request)) (request_geo_label request)
          session context w1
    end.
Proof.
  intros Hmsg Hfarmer. unfold chat_api.
  destruct (String.eqb_spec (Str.strip (request_message request)) "") as [He|_];
    [now elim Hmsg|].
  rewrite Hfarmer. reflexivity.
Qed.

Lemma embedding_pass_fails (msg : string) :
  semantic_filter_fails embedding_backend ALLOWED_SIMILARITY msg ->
  embedding_pass embedding_backend ALLOWED_SIMILARITY msg = false.
Proof.
  unfold semantic_filter_fails, embedding_pass, is_cattle_related.
  destruct embedding_backend as [best_score|]; [|reflexivity].
  intros Hlow. destruct (String.eqb msg ""); [reflexivity|].
  destruct (best_score msg) as [best|] eqn:Hbest; [|reflexivity].
  now apply Hlow.
Qed.

(** The scope gate, reached with no context. *)
Lemma respond_scope (msg : string) (geo : option string) (session : positive) (w : World) :
  matches_greeting K (Str.lower msg) = false ->
  should_refuse K msg (bovine_hint K (Str.lower msg)) = None ->
  keyword_match K (Str.lower msg) = false ->
  semantic_filter_fails embedding_backend ALLOWED_SIMILARITY msg ->
  exists bot_pk w',
    respond' msg geo session ∅ w = (ScopeNarrowing scope_msg bot_pk session, w') /\
    groq_calls w' = groq_calls w.
Proof.
  intros Hgreet Hrefuse Hkey Hsem. unfold respond.
  rewrite (embedding_pass_fails _ Hsem), Hkey.
  destruct (get_location_label K geo (web w)) as [label ws].
  cbn [create_message db web groq_calls with_db].
  rewrite Hgreet.
  rewrite bool_decide_eq_true_2 by reflexivity. simpl negb. simpl orb.
  rewrite Hrefuse. simpl negb.
  unfold bot_reply. cbn.
  eexists _, _. split; reflexivity.
Qed.

(** C2, as amended. *)
Theorem scope_gate (request : Request) (w w1 : World) (session : positive) :
  let msg := Str.strip (request_message request) in
  msg <> "" ->
  is_farmer (request_user request) = true ->
  resolve (request_user request) (request_context request) w = (Some (session, ∅), w1) ->
  matches_greeting K (Str.lower msg) = false ->
  should_refuse K msg (bovine_hint K (Str.lower msg)) = None ->
  keyword_match K (Str.lower msg) = false ->
  semantic_filter_fails embedding_backend ALLOWED_SIMILARITY msg ->
  exists bot_pk w',
    chat request w = (ScopeNarrowing scope_msg bot_pk session, w') /\
    groq_calls w' = groq_calls w.
Proof.
  intros msg Hmsg Hfarmer Hres Hgreet Hrefuse Hkey Hsem.
  rewrite (chat_api_accepted _ _ Hmsg Hfarmer), Hres.
  destruct (respond_scope msg (request_geo_label request) session w1
              Hgreet Hrefuse Hkey Hsem) as (bot_pk & w' & Heq & Hcalls).
  exists bot_pk, w'. split; [exact Heq|].
  rewrite Hcalls. pose proof (resolve_session_groq_calls (request_user request)
                                (request_context request) w) as Hr.
  rewrite Hres in Hr. exact Hr.
Qed.

Lemma only_adds_to_refl (session : positive) (w : World) : only_adds_to session w w.
Proof. repeat split. Qed.

Lemma only_adds_to_trans (session : positive) (w1 w2 w3 : World) :
  only_adds_to session w1 w2 -> only_adds_to session w2 w3 -> only_adds_to session w1 w3.
Proof.
  intros (Hs & Hp & Hm) (Hs' & Hp' & Hm'). repeat split; try congruence.
  intros other Hne. rewrite Hm', Hm by exact Hne. reflexivity.
Qed.

Lemma fresh_message_key (d : Database) : messages d !! fresh (dom (messages d)) = None.
Proof. apply not_elem_of_dom, is_fresh. Qed.

Lemma fresh_session_key (d : Database) : sessions d !! fresh (dom (sessions d)) = None.
Proof. apply not_elem_of_dom, is_fresh. Qed.

Lemma create_message_other (session other : positive) (role : Role) (text location : string)
  (d : Database) :
  other <> session ->
  messages_of other (snd (create_message session role text location d)) = messages_of other d.
Proof.
  intros Hne. unfold messages_of, create_message. cbn [snd messages].
  rewrite map_filter_insert_False by (cbn; congruence).
  now rewrite delete_id by apply fresh_message_key.
Qed.

Lemma with_message_only_adds (session : positive) (role : Role) (text location : string)
  (w : World) :
  only_adds_to session w
    (with_db (snd (create_message session role text location (db w))) w).
Proof.
  repeat split. intros other Hne. cbn [with_db db]. now apply create_message_other.
Qed.

Lemma bot_reply_only_adds (make : string -> positive -> positive -> Response)
  (session : positive) (text location : string) (w : World) :
  only_adds_to session w (snd (bot_reply make session text location w)).
Proof. unfold bot_reply. apply (with_message_only_adds session RoleBot). Qed.

Lemma bot_reply_groq_calls (make : string -> positive -> positive -> Response)
  (session : positive) (text location : string) (w : World) :
  groq_calls (snd (bot_reply make session text location w)) = groq_calls w.
Proof. reflexivity. Qed.

(** [respond], with the label, the stored user message and the flags
    named. *)
Lemma respond_unfold (msg : string) (geo : option string) (session : positive)
  (context : Context) (w : World) :
  let label := fst (get_location_label K geo (web w)) in
  let ws := snd (get_location_label K geo (web w)) in
  let w1 := with_db (snd (create_message session RoleUser msg label (db w)))
              {| db := db w; web := ws; groq_calls := groq_calls w |} in
  let has_context := negb (bool_decide (context = ∅)) in
  respond' msg geo session context w =
    if matches_greeting K (Str.lower msg) then
      match greeting_for_context float_repr (if has_context then context else ∅) with
      | Some welcome => bot_reply Greeting session welcome label w1
      | None => (ServerError, w1)
      end
    else
      match should_refuse K msg (has_context || bovine_hint K (Str.lower msg)) with
      | Some refusal_reason =>
          bot_reply (Refusal refusal_reason) session
            (build_refusal_reply refusal_reason) label w1
      | None =>
          if negb (has_context || keyword_match K (Str.lower msg)
                   || embedding_pass embedding_backend ALLOWED_SIMILARITY msg)
          then bot_reply ScopeNarrowing session scope_msg label w1
          else
            let call := {| groq_message := msg; groq_session_id := session;
                           groq_location := label; groq_context := context |} in
            let w2 := {| db := db w1; web := web w1;
                         groq_calls := groq_calls w1 ++ [call] |} in
            match call_groq_sync (db w1) call with
            | None => (ServerError, w2)
            | Some groq_response =>
                match reply groq_response with
                | None => (ModelError (error_code groq_response) session, w2)
                | Some text => bot_reply Answer session (beautify_reply text) label w2
                end
            end
      end.
Proof.
  unfold respond. destruct (get_location_label K geo (web w)) as [label ws]. reflexivity.
Qed.

Lemma get_location_label_pointer (geo : option string) (s : WebSession) :
  chatbot_session_id (snd (get_location_label K geo s)) = chatbot_session_id s.
Proof.
  unfold get_location_label.
  destruct (chatbot_location_label s) as [cached|];
    [destruct (nonempty cached)|];
    try (destruct geo as [g|]; [destruct (nonempty g)|]); reflexivity.
Qed.

(** Answering touches no session and no message of another session,
    and every reply carries the session it was given. *)
Lemma respond_only_adds (msg : string) (geo : option string) (session : positive)
  (context : Context) (w : World) :
  only_adds_to session w (snd (respond' msg geo session context w)) /\
  (fst (respond' msg geo session context w) = ServerError \/
   response_session_id (fst (respond' msg geo session context w)) = Some session).
Proof.
  rewrite respond_unfold. cbv zeta.
  set (label := fst (get_location_label K geo (web w))).
  set (w0 := {| db := db w; web := snd (get_location_label K geo (web w));
                groq_calls := groq_calls w |}).
  assert (H0 : only_adds_to session w w0).
  { repeat split. apply get_location_label_pointer. }
  set (w1 := with_db (snd (create_message session RoleUser msg label (db w))) w0).
  assert (H1 : only_adds_to session w w1).
  { eapply only_adds_to_trans; [exact H0|].
    exact (with_message_only_adds session RoleUser msg label w0). }
  destruct (matches_greeting K (Str.lower msg)).
  { destruct (greeting_for_context _ _) as [welcome|].
    - split; [|right; reflexivity].
      eapply only_adds_to_trans; [exact H1|]. apply bot_reply_only_adds.
    - split; [exact H1 | left; reflexivity]. }
  destruct (should_refuse K msg _) as [reason|].
  { split; [|right; reflexivity].
    eapply only_adds_to_trans; [exact H1|]. apply bot_reply_only_adds. }
  destruct (negb _).
  { split; [|right; reflexivity].
    eapply only_adds_to_trans; [exact H1|]. apply bot_reply_only_adds. }
  set (w2 := {| db := db w1; web := web w1; groq_calls := _ |}).
  assert (H2 : only_adds_to session w w2) by exact H1.
  destruct (call_groq_sync (db w1) _) as [groq_response|].
  - destruct (reply groq_response) as [text|].
    + split; [|right; reflexivity].
      eapply only_adds_to_trans; [exact H2|]. apply bot_reply_only_adds.
    + split; [exact H2 | right; reflexivity].
  - split; [exact H2 | left; reflexivity].
Qed.

(** The greeting branch comes first: nothing that follows it runs. *)
Lemma respond_greeting (msg : string) (geo : option string) (session : positive)
  (context : Context) (w : World) (welcome : string) :
  matches_greeting K (Str.lower msg) = true ->
  greeting_for_context float_repr context = Some welcome ->
  exists bot_pk w',
    respond' msg geo session context w = (Greeting welcome bot_pk session, w') /\
    groq_calls w' = groq_calls w.
Proof.
  intros Hgreet Hwelcome. rewrite respond_unfold. cbv zeta. rewrite Hgreet.
  assert (Hctx : (if negb (bool_decide (context = ∅)) then context else ∅) = context).
  { destruct (bool_decide (context = ∅)) eqn:He; [|reflexivity].
    apply bool_decide_eq_true in He. now subst. }
  rewrite Hctx, Hwelcome. eexists _, _. split; reflexivity.
Qed.


(** X1.  The greeting branch comes before the refusal check, the scope
    gate and the model: when the stripped message of a farmer matches the
    greeting pattern and the greeting for the resolved context can be
    built, the view sends that greeting and does not call the model,
    whatever the message says besides. *)
Lemma chat_api_greeting (request : Request) (w w1 : World) (session : positive)
  (context : Context) (welcome : string) :
  let msg := Str.strip (request_message request) in
  msg <> "" ->
  is_farmer (request_user request) = true ->
  resolve (request_user request) (request_context request) w = (Some (session, context), w1) ->
  matches_greeting K (Str.lower msg) = true ->
  greeting_for_context float_repr context = Some welcome ->
  exists bot_pk w',
    chat request w = (Greeting welcome bot_pk session, w') /\
    groq_calls w' = groq_calls w.
Proof.
  intros msg Hmsg Hfarmer Hres Hgreet Hwelcome.
  rewrite (chat_api_accepted _ _ Hmsg Hfarmer), Hres.
  destruct (respond_greeting msg (request_geo_label request) session context w1 welcome
              Hgreet Hwelcome) as (bot_pk & w' & Heq & Hcalls).
  exists bot_pk, w'. split; [exact Heq|].
  rewrite Hcalls. pose proof (resolve_session_groq_calls (request_user request)
                                (request_context request) w) as Hr.
  rewrite Hres in Hr. exact Hr.
Qed.



End ViewFacts.


(** ** The feedback view *)

Section FeedbackFacts.

Lemma get_bot_message_some (mid : Z) (d : Database) (pk : positive) (m : ChatMessage) :
  get_bot_message mid d = Some (pk, m) ->
  mid = Z.pos pk /\ messages d !! pk = Some m /\ message_role m = RoleBot.
Proof.
  unfold get_bot_message. destruct (0 <? mid) eqn:Hpos; [|discriminate].
  destruct (messages d !! Z.to_pos mid) as [m'|] eqn:Hm; [|discriminate].
  destruct (bool_decide (message_role m' = RoleBot)) eqn:Hrole; [|discriminate].
  intros [= <- <-]. apply Z.ltb_lt in Hpos. apply bool_decide_eq_true in Hrole.
  rewrite Z2Pos.id by exact Hpos. auto.
Qed.

(** C10.  Feedback aimed at a message written by the user is answered
    with not_found, as for a key that no message has, and nothing is
    stored, whoever asks and whatever the score; forbidden and
    invalid_feedback are answers about bot messages only. *)
Theorem feedback_only_on_bot_messages :
  (forall user body d mid fb pk m,
      parse_feedback body = Some (mid, fb) ->
      mid = Z.pos pk ->
      messages d !! pk = Some m ->
      message_role m = RoleUser ->
      feedback user body d = (NotFound, d)) /\
  (forall user body d mid fb,
      parse_feedback body = Some (mid, fb) ->
      (forall pk, mid = Z.pos pk -> messages d !! pk = None) ->
      feedback user body d = (NotFound, d)) /\
  (forall user body d,
      fst (feedback user body d) = FeedbackForbidden \/
      fst (feedback user body d) = InvalidFeedback ->
      exists mid fb pk m,
        parse_feedback body = Some (mid, fb) /\ mid = Z.pos pk /\
        messages d !! pk = Some m /\ message_role m = RoleBot).
Proof.
  split; [|split].
  - intros user body d mid fb pk m Hparse -> Hm Hrole. unfold feedback.
    rewrite Hparse. unfold get_bot_message. cbn [Z.ltb Z.compare Z.to_pos].
    rewrite Hm, Hrole. reflexivity.
  - intros user body d mid fb Hparse Hnone. unfold feedback. rewrite Hparse.
    destruct (get_bot_message mid d) as [[pk m]|] eqn:Hget; [|reflexivity].
    apply get_bot_message_some in Hget as (Hmid & Hm & _).
    rewrite (Hnone pk Hmid) in Hm. discriminate.
  - intros user body d. unfold feedback.
    destruct (parse_feedback body) as [[mid fb]|]; [|intros [?|?]; discriminate].
    destruct (get_bot_message mid d) as [[pk m]|] eqn:Hget; [|intros [?|?]; discriminate].
    intros _. apply get_bot_message_some in Hget as (Hmid & Hm & Hrole).
    now exists mid, fb, pk, m.
Qed.

End FeedbackFacts.

(** ** The claims on the samples *)

Lemma scope_gate_witness :
exists bot_pk w',
  sample_chat_api weather_request empty_world
    = (ScopeNarrowing scope_msg bot_pk 1%positive, w') /\
  groq_calls w' = [].
Proof.
eapply (scope_gate sample_constants sample_float_repr None (Fin 65 100) sample_groq
          weather_request empty_world _ 1%positive).
- vm_compute. discriminate.
- vm_compute. reflexivity.
- vm_compute. reflexivity.
- vm_compute. reflexivity.
- vm_compute. reflexivity.
- vm_compute. reflexivity.
- exact I.
Defined.

(** C2, as stated, fails: "hello" is not empty, is not refused, comes
  with no context, holds no cattle keyword and meets no semantic
  filter, and the farmer gets the greeting, not the scope reply. *)
Lemma greeting_precedes_scope_gate :
Str.strip (request_message hello_request) <> "" /\
fst (resolve_session sample_float_repr farmer PyNotDict empty_world) = Some (1%positive, ∅) /\
should_refuse sample_constants "hello" (bovine_hint sample_constants "hello") = None /\
keyword_match sample_constants "hello" = false /\
semantic_filter_fails None (Fin 65 100) "hello" /\
(exists text,
    fst (sample_chat_api hello_request empty_world) = Greeting text 2%positive 1%positive /\
    text <> scope_msg) /\
(forall bot_pk session w',
    sample_chat_api hello_request empty_world <> (ScopeNarrowing scope_msg bot_pk session, w')).
Proof.
split; [vm_compute; discriminate|].
split; [vm_compute; reflexivity|].
split; [vm_compute; reflexivity|].
split; [vm_compute; reflexivity|].
split; [exact I|].
split.
- eexists. split; [vm_compute; reflexivity|]. vm_compute. discriminate.
- intros bot_pk session w' H. apply (f_equal fst) in H. vm_compute in H. discriminate.
Qed.

(** C7: a greeting from a farmer whose context names the animal with a
  number.  The pattern matches, the name is kept as a number by the
  normalisation, and the view ends in an exception instead of the
  greeting reply. *)
Lemma greeting_fails_on_numeric_name :
matches_greeting sample_constants (Str.lower "hello") = true /\
normalise_context sample_float_repr (request_context numeric_name_request) !! "name"
  = Some (VInt 5) /\
fst (sample_chat_api numeric_name_request empty_world) = ServerError.
Proof.
split; [vm_compute; reflexivity|].
split; [vm_compute; reflexivity|].
vm_compute. reflexivity.
Qed.




Lemma feedback_only_on_bot_messages_witness :
feedback stranger (feedback_body 1 7) feedback_db = (NotFound, feedback_db) /\
feedback stranger (feedback_body 9 1) feedback_db = (NotFound, feedback_db) /\
fst (feedback stranger (feedback_body 2 7) feedback_db) = FeedbackForbidden /\
fst (feedback farmer (feedback_body 2 7) feedback_db) = InvalidFeedback.
Proof.
destruct feedback_only_on_bot_messages as (Huser & Hmissing & _).
split.
{ apply (Huser stranger (feedback_body 1 7) feedback_db 1 7 1%positive first_message);
    vm_compute; reflexivity. }
split.
{ apply (Hmissing stranger (feedback_body 9 1) feedback_db 9 1); [vm_compute; reflexivity|].
  intros pk [= <-]. vm_compute. reflexivity. }
split; vm_compute; reflexivity.
Defined.

(** * Further properties *)

Section MoreClassifierFacts.
Context (K : constants).

(** X20.  With a cattle context the only refusal is self-harm, and self-harm
    is refused with or without one: a context takes refusals away and
    never adds one. *)
Theorem context_only_removes_refusals (message reason : string) :
  should_refuse K message true = Some reason <->
  reason = "self_harm" /\ should_refuse K message false = Some "self_harm".
Proof.
  unfold should_refuse.
  destruct (find _ (SELF_HARM_TERMS K)) as [term|]; simpl.
  - split; [intros [= <-]; auto | intros [-> _]; reflexivity].
  - split; [discriminate|]. intros [_ H].
    destruct (Str.any_in (VIOLENCE_TERMS K) _); [discriminate|].
    destruct (_has_human_health_intent K _); [discriminate|].
    destruct (_ || _)%bool; discriminate.
Qed.

End MoreClassifierFacts.

Lemma chat_api_greeting_witness :
  should_refuse sample_constants (request_message greeting_in_distress_request) true
    = Some "self_harm" /\
  exists welcome bot_pk w',
    greeting_for_context sample_float_repr ∅ = Some welcome /\
    sample_chat_api greeting_in_distress_request empty_world
      = (Greeting welcome bot_pk 1%positive, w') /\
    groq_calls w' = [].
Proof.
  split; [vm_compute; reflexivity|].
  destruct (chat_api_greeting sample_constants sample_float_repr None (Fin 65 100) sample_groq
              greeting_in_distress_request empty_world
              (snd (resolve_session sample_float_repr farmer PyNotDict empty_world))
              1%positive ∅
              (default "" (greeting_for_context sample_float_repr ∅)))
    as (bot_pk & w' & Heq & Hcalls).
  - vm_compute. discriminate.
  - vm_compute. reflexivity.
  - vm_compute. reflexivity.
  - vm_compute. reflexivity.
  - vm_compute. reflexivity.
  - eexists _, bot_pk, w'. split; [vm_compute; reflexivity|]. split; [exact Heq | exact Hcalls].
Defined.

Section ShapeFacts.
Context (float_repr : pyfloat -> string).

Local Abbreviation normalise := (normalise_context float_repr).
Local Abbreviation item := (normalise_item float_repr).



(** X3.  The normalised context is empty exactly when the input is not
    a dict or the loop finds no usable item in it: the default source is
    never the only field. *)
Theorem normalise_context_empty_iff (raw : PyAny) :
  normalise raw = ∅ <->
  match raw with
  | PyNotDict => True
  | PyDict d => forall key v, d !! key = Some v -> item key v = None
  end.
Proof.
  destruct raw as [d|]; [|split; reflexivity].
  unfold normalise_context. split.
  - intros Hempty key v Hd.
    assert (Hcleaned : map_imap item d = ∅).
    { destruct (bool_decide (map_imap item d = ∅)) eqn:He.
      - now apply bool_decide_eq_true in He.
      - simpl in Hempty.
        destruct (bool_decide (map_imap item d !! "source" = None)); simpl in Hempty.
        + apply (f_equal (lookup "source")) in Hempty.
          rewrite lookup_insert_eq, lookup_empty in Hempty. discriminate.
        + apply bool_decide_eq_false in He. now elim He. }
    apply (f_equal (lookup key)) in Hcleaned.
    rewrite map_lookup_imap, Hd, lookup_empty in Hcleaned. exact Hcleaned.
  - intros Hnone.
    assert (Hempty : map_imap item d = ∅).
    { apply map_eq. intros key. rewrite map_lookup_imap, lookup_empty.
      destruct (d !! key) as [v|] eqn:Hd; [|reflexivity]. simpl. eauto. }
    rewrite Hempty. reflexivity.
Qed.

End ShapeFacts.


Lemma normalise_context_empty_iff_witness :
  normalise_context sample_float_repr
    (PyDict (<[ "owner" := VStr "someone" ]> {[ "age_years" := VStr "old" ]})) = ∅.
Proof.
  apply (normalise_context_empty_iff sample_float_repr
           (PyDict (<[ "owner" := VStr "someone" ]> {[ "age_years" := VStr "old" ]}))).
  intros key v Hl.
  destruct (decide (key = "owner")) as [->|Hk1].
  { rewrite lookup_insert_eq in Hl. injection Hl as <-. vm_compute. reflexivity. }
  rewrite lookup_insert_ne in Hl by congruence.
  destruct (decide (key = "age_years")) as [->|Hk2].
  { rewrite lookup_singleton_eq in Hl. injection Hl as <-. vm_compute. reflexivity. }
  rewrite lookup_singleton_ne in Hl by congruence. discriminate.
Defined.

Section MoreAugmentFacts.

Lemma cattle_get_some (herd : gmap positive Cattle) (animal_pk : Z) (user : User)
  (pk : positive) (c : Cattle) :
  cattle_get herd animal_pk user = Some (pk, c) ->
  animal_pk = Z.pos pk /\ herd !! pk = Some c /\ cattle_owner c = user_id user.
Proof.
  unfold cattle_get. destruct (0 <? animal_pk) eqn:Hpos; [|discriminate].
  destruct (herd !! Z.to_pos animal_pk) as [c'|] eqn:Hc; [|discriminate].
  destruct (bool_decide (cattle_owner c' = user_id user)) eqn:Howner; [|discriminate].
  intros [= <- <-]. apply Z.ltb_lt in Hpos. apply bool_decide_eq_true in Howner.
  rewrite Z2Pos.id by exact Hpos. auto.
Qed.

(** The three ways the enrichment can end. *)
Lemma augment_cases (herd : gmap positive Cattle) (user : User) (context : Context) :
  (context = ∅ /\ augment_context_with_cattle herd user context = Some ∅) \/
  (exists animal_id animal_pk pk c,
      context !! "animal_id" = Some animal_id /\ Py.int animal_id = Py.IntOk animal_pk /\
      cattle_get herd animal_pk user = Some (pk, c) /\
      augment_context_with_cattle herd user context = Some (prune (enrich_from pk c context))) \/
  augment_context_with_cattle herd user context = Some (prune (delete "animal_id" context)) \/
  (exists negative, context !! "animal_id" = Some (VFloat (Inf negative)) /\
      augment_context_with_cattle herd user context = None).
Proof.
  unfold augment_context_with_cattle.
  destruct (bool_decide (context = ∅)) eqn:Hempty.
  { left. apply bool_decide_eq_true in Hempty. auto. }
  right.
  destruct (context !! "animal_id") as [animal_id|] eqn:Hid; [|auto].
  destruct (Py.is_blank animal_id) eqn:Hblank; [auto|].
  destruct (Py.int animal_id) as [animal_pk| |] eqn:Hint; [| auto |].
  - destruct (animal_pk =? 0); [auto|].
    destruct (cattle_get herd animal_pk user) as [[pk c]|] eqn:Hget; [|auto].
    left. exists animal_id, animal_pk, pk, c. auto.
  - right. right.
    destruct animal_id as [| | |[| |]| |]; simpl in Hint; try discriminate.
    + eauto.
    + destruct (Float.int_of_string s); discriminate.
Qed.

Lemma enrich_from_animal_id (pk : positive) (c : Cattle) (d : Context) :
  enrich_from pk c d !! "animal_id" = Some (VInt (Z.pos pk)) /\
  enrich_from pk c d !! "source" = Some (VStr "saved").
Proof.
  unfold enrich_from.
  destruct (cattle_daily_milk_yield c); destruct (cattle_last_vaccination_date c);
    rewrite !setdefault_lookup_ne by discriminate;
    (split; [rewrite lookup_insert_ne by discriminate|]); apply lookup_insert_eq.
Qed.

Lemma enrich_from_other (pk : positive) (c : Cattle) (d : Context) (key : string) :
  key ∉ enrichable_keys -> key <> "animal_id" -> key <> "source" ->
  enrich_from pk c d !! key = d !! key.
Proof.
  unfold enrichable_keys. intros Hkey Hid Hsource.
  assert (Hn : "name" <> key /\ "tag_number" <> key /\ "breed" <> key /\ "age_years" <> key /\
               "milk_yield" <> key /\ "last_vaccination_date" <> key).
  { repeat split; intros <-; apply Hkey; apply (bool_decide_unpack _); vm_compute; exact I. }
  destruct Hn as (H1 & H2 & H3 & H4 & H5 & H6).
  unfold enrich_from.
  destruct (cattle_daily_milk_yield c); destruct (cattle_last_vaccination_date c);
    rewrite ?setdefault_lookup_ne by assumption;
    rewrite !lookup_insert_ne by congruence; reflexivity.
Qed.

(** X4.  An enriched context names an animal only after the lookup: its
    animal_id is then the key of a record of the herd that belongs to the
    user, and its source is "saved".  An animal_id that came with the
    request and could not be matched is not in the result. *)
Theorem augment_animal_id_verified (herd : gmap positive Cattle) (user : User)
  (context enriched : Context) (v : PyVal) :
  augment_context_with_cattle herd user context = Some enriched ->
  enriched !! "animal_id" = Some v ->
  exists pk c,
    v = VInt (Z.pos pk) /\ herd !! pk = Some c /\ cattle_owner c = user_id user /\
    enriched !! "source" = Some (VStr "saved").
Proof.
  intros Haug Hid.
  destruct (augment_cases herd user context)
    as [[_ H]|[(a & z & pk & c & _ & _ & Hget & H)|[H|(s & _ & H)]]];
    rewrite H in Haug; try discriminate; injection Haug as <-.
  - rewrite lookup_empty in Hid. discriminate.
  - destruct (enrich_from_animal_id pk c context) as [Ha Hs].
    rewrite prune_lookup, Ha in Hid. injection Hid as <-.
    destruct (cattle_get_some _ _ _ _ _ Hget) as (_ & Hc & Howner).
    exists pk, c. repeat split; try assumption.
    rewrite prune_lookup, Hs. reflexivity.
  - rewrite prune_lookup, lookup_delete_eq in Hid. discriminate.
Qed.

(** X5.  The enrichment leaves the other fields alone: a key outside
    animal_id, source and the six enrichable ones has in the result the
    value it had in the input, unless that value is None or the empty
    string, which no result holds under any key. *)
Theorem augment_frame (herd : gmap positive Cattle) (user : User)
  (context enriched : Context) :
  augment_context_with_cattle herd user context = Some enriched ->
  (forall key v, enriched !! key = Some v -> Py.is_blank v = false) /\
  (forall key, key ∉ enrichable_keys -> key <> "animal_id" -> key <> "source" ->
     enriched !! key = context !! key ≫= unless_blank).
Proof.
  intros Haug.
  assert (Hpruned : exists d, enriched = prune d /\
            forall key, key ∉ enrichable_keys -> key <> "animal_id" -> key <> "source" ->
              d !! key = context !! key).
  { destruct (augment_cases herd user context)
      as [[He H]|[(a & z & pk & c & _ & _ & _ & H)|[H|(s & _ & H)]]];
      rewrite H in Haug; try discriminate; injection Haug as <-.
    - exists ∅. subst context. split; [|reflexivity].
      apply map_eq. intros key. now rewrite prune_lookup, lookup_empty.
    - eexists. split; [reflexivity|]. intros key. apply enrich_from_other.
    - eexists. split; [reflexivity|]. intros key _ Hid _.
      apply lookup_delete_ne. congruence. }
  destruct Hpruned as (d & -> & Hd). split.
  - intros key v. rewrite prune_lookup. unfold unless_blank.
    destruct (d !! key) as [w|]; simpl; [|discriminate].
    destruct (Py.is_blank w) eqn:Hb; [discriminate|]. now intros [= <-].
  - intros key H1 H2 H3. rewrite prune_lookup, (Hd key H1 H2 H3). reflexivity.
Qed.

(** X6.  When no record of the user matches, the animal_id is taken out
    and every other field, the source included, is the caller's: the
    result is the input without animal_id and without blank values. *)
Theorem augment_unmatched (herd : gmap positive Cattle) (user : User)
  (context : Context) (animal_id : PyVal) :
  context !! "animal_id" = Some animal_id ->
  (forall animal_pk, Py.int animal_id = Py.IntOk animal_pk ->
     cattle_get herd animal_pk user = None) ->
  (forall negative, animal_id <> VFloat (Inf negative)) ->
  augment_context_with_cattle herd user context = Some (prune (delete "animal_id" context)).
Proof.
  intros Hid Hnone Hfinite.
  destruct (augment_cases herd user context)
    as [[He _]|[(a & z & pk & c & Ha & Hint & Hget & _)|[H|(s & Hs & _)]]].
  - subst context. rewrite lookup_empty in Hid. discriminate.
  - rewrite Hid in Ha. injection Ha as <-. rewrite (Hnone z Hint) in Hget. discriminate.
  - exact H.
  - rewrite Hid in Hs. injection Hs as ->. now elim (Hfinite s).
Qed.


End MoreAugmentFacts.

Lemma augment_animal_id_verified_witness :
  exists enriched,
    augment_context_with_cattle sample_herd farmer gauri_context = Some enriched /\
    enriched !! "animal_id" = Some (VInt 5) /\
    enriched !! "source" = Some (VStr "saved").
Proof.
  exists (prune (enrich_from 5%positive gauri gauri_context)).
  assert (Haug : augment_context_with_cattle sample_herd farmer gauri_context
                 = Some (prune (enrich_from 5%positive gauri gauri_context)))
    by (vm_compute; reflexivity).
  assert (Hid : prune (enrich_from 5%positive gauri gauri_context) !! "animal_id"
                = Some (VInt 5)) by (vm_compute; reflexivity).
  destruct (augment_animal_id_verified sample_herd farmer gauri_context _ _ Haug Hid)
    as (pk & c & _ & _ & _ & Hsource).
  split; [exact Haug|]. split; [exact Hid | exact Hsource].
Defined.

Lemma augment_frame_witness :
  exists enriched,
    augment_context_with_cattle sample_herd farmer gauri_context = Some enriched /\
    enriched !! "issue" = Some (VStr "Mastitis").
Proof.
  exists (prune (enrich_from 5%positive gauri gauri_context)).
  assert (Haug : augment_context_with_cattle sample_herd farmer gauri_context
                 = Some (prune (enrich_from 5%positive gauri gauri_context)))
    by (vm_compute; reflexivity).
  split; [exact Haug|].
  destruct (augment_frame sample_herd farmer gauri_context _ Haug) as [_ Hframe].
  rewrite (Hframe "issue").
  - vm_compute. reflexivity.
  - apply (bool_decide_unpack _). vm_compute. exact I.
  - discriminate.
  - discriminate.
Defined.

Lemma augment_unmatched_witness :
  augment_context_with_cattle sample_herd farmer unknown_animal_context
    = Some (<[ "breed" := VStr "Jersey" ]> {[ "source" := VStr "saved" ]}).
Proof.
  rewrite (augment_unmatched sample_herd farmer unknown_animal_context (VInt 7)).
  - vm_compute. reflexivity.
  - vm_compute. reflexivity.
  - intros animal_pk [= <-]. vm_compute. reflexivity.
  - discriminate.
Defined.


Section MoreFeedbackFacts.

(** X8.  The feedback view stores something only when it answers ok:
    the message is then a bot message of a session of the asking user, the
    score is -1, 0 or 1, and the one change to the stores is the feedback
    field of that message.  With any other answer the stores are as they
    were. *)
Theorem feedback_effect (user : User) (body : option FeedbackPayload) (d : Database) :
  match fst (feedback user body d) with
  | FeedbackSaved =>
      exists mid fb pk m s,
        parse_feedback body = Some (mid, fb) /\ mid = Z.pos pk /\
        messages d !! pk = Some m /\ message_role m = RoleBot /\
        sessions d !! message_session m = Some s /\ session_user s = user_id user /\
        (fb = -1 \/ fb = 0 \/ fb = 1) /\
        snd (feedback user body d)
          = {| sessions := sessions d;
               messages := <[ pk := with_feedback fb m ]> (messages d);
               herd := herd d |}
  | _ => snd (feedback user body d) = d
  end.
Proof.
  unfold feedback.
  destruct (parse_feedback body) as [[mid fb]|] eqn:Hparse; [|reflexivity].
  destruct (get_bot_message mid d) as [[pk m]|] eqn:Hget; [|reflexivity].
  destruct (sessions d !! message_session m) as [s|] eqn:Hs; [|reflexivity].
  destruct (bool_decide (session_user s = user_id user)) eqn:Howner; [|reflexivity].
  destruct (bool_decide (fb ∈ [-1; 0; 1])) eqn:Hrange; [|reflexivity].
  cbn [negb fst snd].
  apply get_bot_message_some in Hget as (Hmid & Hm & Hrole).
  apply bool_decide_eq_true in Howner, Hrange.
  exists mid, fb, pk, m, s. repeat split; try assumption.
  - apply elem_of_cons in Hrange as [?|Hrange]; [tauto|].
    apply elem_of_cons in Hrange as [?|Hrange]; [tauto|].
    apply elem_of_cons in Hrange as [?|Hrange]; [tauto|].
    now apply elem_of_nil in Hrange.
  - unfold save_feedback. f_equal.
    apply map_eq. intros k. destruct (decide (k = pk)) as [->|Hne].
    + rewrite lookup_alter_eq, lookup_insert_eq, Hm. reflexivity.
    + rewrite lookup_alter_ne, lookup_insert_ne by congruence. reflexivity.
Qed.

(** X9.  A score sent twice is stored once: repeating an accepted
    submission changes nothing. *)
Theorem feedback_twice (user : User) (body : option FeedbackPayload) (d : Database) :
  fst (feedback user body d) = FeedbackSaved ->
  feedback user body (snd (feedback user body d)) = (FeedbackSaved, snd (feedback user body d)).
Proof.
  intros Hsaved. pose proof (feedback_effect user body d) as Heff.
  rewrite Hsaved in Heff.
  destruct Heff as (mid & fb & pk & m & s & Hparse & -> & Hm & Hrole & Hs & Howner & Hrange & ->).
  unfold feedback. rewrite Hparse. unfold get_bot_message.
  cbn [Z.ltb Z.compare Z.to_pos messages sessions].
  rewrite lookup_insert_eq.
  cbn [with_feedback message_role message_session sessions messages herd].
  rewrite (bool_decide_eq_true_2 _ Hrole). cbn [with_feedback message_session].
  rewrite Hs, (bool_decide_eq_true_2 _ Howner).
  assert (Hin : fb ∈ [-1; 0; 1]).
  { destruct Hrange as [->|[->| ->]]; apply (bool_decide_unpack _); vm_compute; exact I. }
  rewrite (bool_decide_eq_true_2 _ Hin). cbn [negb].
  f_equal. unfold save_feedback. cbn [sessions messages herd]. f_equal.
  apply map_eq. intros k. destruct (decide (k = pk)) as [->|Hne].
  - rewrite lookup_alter_eq, !lookup_insert_eq. reflexivity.
  - rewrite lookup_alter_ne, !lookup_insert_ne by congruence. reflexivity.
Qed.

End MoreFeedbackFacts.

Section SummaryFacts.
Context (float_repr : pyfloat -> string).

(** X10.  The summary of a context fails exactly when the context holds
    a name that is truthy and is not a string; the greeting fails with
    it. *)
Theorem context_summary_fails_iff (ctx : Context) :
  (context_summary float_repr ctx = None <->
   exists v, ctx !! "name" = Some v /\ Py.truthy v = true /\ forall s, v <> VStr s) /\
  (greeting_for_context float_repr ctx = None <-> context_summary float_repr ctx = None).
Proof.
  split.
  - unfold context_summary, present.
    destruct (bool_decide (ctx = ∅)) eqn:Hempty.
    { apply bool_decide_eq_true in Hempty. subst ctx. split; [discriminate|].
      intros (v & Hv & _). rewrite lookup_empty in Hv. discriminate. }
    destruct (ctx !! "name") as [v|]; [|split; [discriminate | intros (v & Hv & _); discriminate]].
    destruct (Py.truthy v) eqn:Htruthy.
    + destruct v as [|b|z|f|s|r]; cbn iota;
        try (split; [intros _; eexists; split; [reflexivity|];
                     split; [exact Htruthy | intros s; discriminate]
                    | reflexivity]).
      split; [discriminate|]. intros (w & [= <-] & _ & Hns). now elim (Hns s).
    + split; [discriminate|]. intros (w & [= <-] & Ht & _). congruence.
  - unfold greeting_for_context.
    destruct (context_summary float_repr ctx); split; intros H; try discriminate; reflexivity.
Qed.

End SummaryFacts.

Lemma feedback_effect_witness :
  fst (feedback farmer (feedback_body 2 1) feedback_db) = FeedbackSaved /\
  messages (snd (feedback farmer (feedback_body 2 1) feedback_db)) !! 2%positive
    = Some (with_feedback 1 bot_message) /\
  snd (feedback stranger (feedback_body 2 1) feedback_db) = feedback_db.
Proof.
  split; [vm_compute; reflexivity|]. split; [vm_compute; reflexivity|].
  pose proof (feedback_effect stranger (feedback_body 2 1) feedback_db) as H.
  replace (fst (feedback stranger (feedback_body 2 1) feedback_db)) with FeedbackForbidden in H
    by (vm_compute; reflexivity).
  exact H.
Defined.

Lemma feedback_twice_witness :
  feedback farmer (feedback_body 2 (-1)) (snd (feedback farmer (feedback_body 2 (-1)) feedback_db))
  = (FeedbackSaved, snd (feedback farmer (feedback_body 2 (-1)) feedback_db)).
Proof.
  apply (feedback_twice farmer (feedback_body 2 (-1)) feedback_db).
  vm_compute. reflexivity.
Defined.

Lemma context_summary_fails_iff_witness :
  context_summary sample_float_repr numeric_name_context = None /\
  context_summary sample_float_repr (<[ "name" := VStr "Gauri" ]> numeric_name_context)
    = Some "Gauri, Gir breed".
Proof.
  split; [|vm_compute; reflexivity].
  apply (proj2 (proj1 (context_summary_fails_iff sample_float_repr numeric_name_context))).
  exists (VInt 5). split; [vm_compute; reflexivity|]. split; [reflexivity|]. discriminate.
Defined.

Section SessionFacts.
Context (float_repr : pyfloat -> string).

Local Abbreviation resolve := (resolve_session float_repr).

Lemma messages_of_nonempty (sid : positive) (d : Database) :
  messages_of sid d <> ∅ <->
  exists pk m, messages d !! pk = Some m /\ message_session m = sid.
Proof.
  unfold messages_of. split.
  - intros Hne. apply map_choose in Hne as (pk & m & Hl).
    apply map_lookup_filter_Some in Hl as [Hl Hs]. eauto.
  - intros (pk & m & Hl & Hs) Hempty.
    assert (Hin : filter (fun item => message_session item.2 = sid) (messages d) !! pk = Some m).
    { apply map_lookup_filter_Some. auto. }
    rewrite Hempty, lookup_empty in Hin. discriminate.
Qed.

Lemma history_kept_refl (w : World) : history_kept w w.
Proof. repeat split; eauto. Qed.

Lemma history_kept_trans (w1 w2 w3 : World) :
  history_kept w1 w2 -> history_kept w2 w3 -> history_kept w1 w3.
Proof.
  intros (Hh & Hm & Hs) (Hh' & Hm' & Hs'). split; [congruence|]. split; [eauto|].
  intros sid s Hsid.
  destruct (Hs sid s Hsid) as (s' & Hsid' & Hu & Hc).
  destruct (Hs' sid s' Hsid') as (s'' & Hsid'' & Hu' & Hc').
  exists s''. split; [exact Hsid''|]. split; [congruence|].
  intros Hne. rewrite Hc' , Hc; [reflexivity | exact Hne |].
  apply messages_of_nonempty in Hne as (pk & m & Hl & Hms).
  apply messages_of_nonempty. eauto.
Qed.

(** Creating a session keeps the history. *)
Lemma create_session_kept (user : User) (context : Context) (w : World) (ws : WebSession) :
  history_kept w {| db := snd (create_session user context (db w)); web := ws;
                    groq_calls := groq_calls w |}.
Proof.
  split; [reflexivity|]. split; [auto|].
  intros sid s Hsid. exists s. cbn [db create_session snd sessions].
  split; [|auto]. rewrite lookup_insert_ne; [exact Hsid|].
  intros <-. rewrite fresh_session_key in Hsid. discriminate.
Qed.

(** What the active session is, once found or created. *)
Lemma active_session_spec (user : User) (w : World) :
  history_kept w (snd (active_session user w)) /\
  messages (db (snd (active_session user w))) = messages (db w) /\
  chatbot_session_id (web (snd (active_session user w))) = Some (fst (active_session user w)) /\
  exists s, sessions (db (snd (active_session user w))) !! fst (active_session user w) = Some s /\
            session_user s = user_id user.
Proof.
  unfold active_session.
  destruct (chatbot_session_id (web w)) as [sid|] eqn:Hpointer.
  - destruct (sessions (db w) !! sid) as [s|] eqn:Hs.
    + destruct (bool_decide (session_user s = user_id user)) eqn:Howner.
      * apply bool_decide_eq_true in Howner. cbn [fst snd].
        split; [apply history_kept_refl|]. split; [reflexivity|]. split; [exact Hpointer|].
        eauto.
      * cbn [fst snd db web create_session sessions messages set_session_id chatbot_session_id].
        split; [apply create_session_kept|]. split; [reflexivity|]. split; [reflexivity|].
        eexists. split; [apply lookup_insert_eq | reflexivity].
    + cbn [fst snd db web create_session sessions messages set_session_id chatbot_session_id].
      split; [apply create_session_kept|]. split; [reflexivity|]. split; [reflexivity|].
      eexists. split; [apply lookup_insert_eq | reflexivity].
  - cbn [fst snd db web create_session sessions messages set_session_id chatbot_session_id].
    split; [apply create_session_kept|]. split; [reflexivity|]. split; [reflexivity|].
    eexists. split; [apply lookup_insert_eq | reflexivity].
Qed.

Lemma apply_context_spec (user : User) (session : positive) (incoming : Context) (w : World)
  (s : ChatSession) :
  sessions (db w) !! session = Some s ->
  session_user s = user_id user ->
  chatbot_session_id (web w) = Some session ->
  let r := apply_context user session incoming w in
  history_kept w (snd r) /\
  messages (db (snd r)) = messages (db w) /\
  chatbot_session_id (web (snd r)) = Some (fst (fst r)) /\
  exists s', sessions (db (snd r)) !! fst (fst r) = Some s' /\ session_user s' = user_id user.
Proof.
  intros Hs Howner Hpointer. unfold apply_context. rewrite Hs.
  destruct (negb (bool_decide (incoming = ∅))).
  2:{ cbn. split; [apply history_kept_refl|]. eauto. }
  destruct (negb (Py.dict_eqb (session_context s) incoming)).
  2:{ cbn. split; [apply history_kept_refl|]. eauto. }
  destruct (bool_decide (messages_of session (db w) = ∅)) eqn:Hempty; cbn [negb].
  - apply bool_decide_eq_true in Hempty.
    cbn [fst snd db web save_context sessions messages herd].
    split.
    { split; [reflexivity|]. split; [auto|].
      intros sid s0 Hsid. cbn [db sessions save_context].
      destruct (decide (sid = session)) as [->|Hne].
      - eexists. split; [rewrite lookup_alter_eq, Hsid; reflexivity|].
        split; [reflexivity|]. intros Hne. now elim Hne.
      - exists s0. split; [|auto]. rewrite lookup_alter_ne by congruence. exact Hsid. }
    split; [reflexivity|]. split; [exact Hpointer|].
    eexists. split; [rewrite lookup_alter_eq, Hs; reflexivity | exact Howner].
  - cbn [fst snd db web create_session sessions messages set_session_id chatbot_session_id].
    split; [apply create_session_kept|]. split; [reflexivity|]. split; [reflexivity|].
    eexists. split; [apply lookup_insert_eq | reflexivity].
Qed.

(** The session that the view settles on is one of the user, it is the
    one the pointer names, and settling keeps the history. *)
Lemma resolve_session_spec (user : User) (raw : PyAny) (w : World) :
  history_kept w (snd (resolve user raw w)) /\
  messages (db (snd (resolve user raw w))) = messages (db w) /\
  forall session context,
    fst (resolve user raw w) = Some (session, context) ->
    chatbot_session_id (web (snd (resolve user raw w))) = Some session /\
    exists s, sessions (db (snd (resolve user raw w))) !! session = Some s /\
              session_user s = user_id user.
Proof.
  unfold resolve_session.
  destruct (active_session_spec user w) as (Hk & Hm & Hp & s & Hs & Hu).
  destruct (active_session user w) as [session w1]. cbn [fst snd] in *.
  destruct (augment_context_with_cattle _ _ _) as [incoming|].
  2:{ cbn. split; [exact Hk|]. split; [exact Hm|]. discriminate. }
  destruct (apply_context_spec user session incoming w1 s Hs Hu Hp) as (Hk' & Hm' & Hp' & Hs').
  destruct (apply_context user session incoming w1) as [[session' context] w2].
  cbn [fst snd] in *.
  split; [eapply history_kept_trans; eassumption|]. split; [congruence|].
  intros ? ? [= <- <-]. auto.
Qed.

End SessionFacts.

Section StoreFacts.
Context (K : constants).
Context (float_repr : pyfloat -> string).
Context (embedding_backend : option (string -> option pyfloat)).
Context (ALLOWED_SIMILARITY : pyfloat).
Context (call_groq_sync : Database -> GroqCall -> option GroqResponse).

Local Abbreviation chat :=
  (chat_api K float_repr embedding_backend ALLOWED_SIMILARITY call_groq_sync).
Local Abbreviation respond' :=
  (respond K float_repr embedding_backend ALLOWED_SIMILARITY call_groq_sync).
Local Abbreviation resolve := (resolve_session float_repr).

(** What answering stores: the message of the user, under a key that
    was free, and after it the reply of the bot, if there is one. *)
Lemma respond_messages (msg : string) (geo : option string) (session : positive)
  (context : Context) (w : World) :
  let label := fst (get_location_label K geo (web w)) in
  let user_pk := fresh (dom (messages (db w))) in
  let with_user := <[ user_pk := new_message session RoleUser msg label ]> (messages (db w)) in
  let r := respond' msg geo session context w in
  sessions (db (snd r)) = sessions (db w) /\
  herd (db (snd r)) = herd (db w) /\
  match fst r with
  | Greeting text b s | Refusal _ text b s | ScopeNarrowing text b s | Answer text b s =>
      s = session /\ b = fresh (dom with_user) /\
      messages (db (snd r)) = <[ b := new_message session RoleBot text label ]> with_user
  | ModelError _ s => s = session /\ messages (db (snd r)) = with_user
  | ServerError => messages (db (snd r)) = with_user
  | EmptyMessage | Forbidden => False
  end.
Proof.
  cbv zeta. rewrite respond_unfold. cbv zeta.
  destruct (matches_greeting K (Str.lower msg)).
  { destruct (greeting_for_context _ _); repeat split. }
  destruct (should_refuse K msg _); [repeat split|].
  destruct (negb _); [repeat split|].
  destruct (call_groq_sync _ _) as [g|]; [|repeat split].
  destruct (reply g); repeat split.
Qed.

Lemma fresh_in_messages (m : gmap positive ChatMessage) : m !! fresh (dom m) = None.
Proof. apply not_elem_of_dom, is_fresh. Qed.

(** Answering keeps the history. *)
Lemma respond_kept (msg : string) (geo : option string) (session : positive)
  (context : Context) (w : World) :
  history_kept w (snd (respond' msg geo session context w)).
Proof.
  destruct (respond_messages msg geo session context w) as (Hs & Hh & Hm).
  cbv zeta in Hm.
  set (user_pk := fresh (dom (messages (db w)))) in *.
  set (label := fst (get_location_label K geo (web w))) in *.
  set (with_user := <[ user_pk := new_message session RoleUser msg label ]> (messages (db w))) in *.
  assert (Hstep : forall pk m, messages (db w) !! pk = Some m -> with_user !! pk = Some m).
  { intros pk m Hl. unfold with_user. rewrite lookup_insert_ne; [exact Hl|].
    intros <-. unfold user_pk in Hl. rewrite fresh_in_messages in Hl. discriminate. }
  assert (Hbot : forall text pk m, with_user !! pk = Some m ->
            <[ fresh (dom with_user) := new_message session RoleBot text label ]> with_user !! pk
            = Some m).
  { intros text pk m Hl. rewrite lookup_insert_ne; [exact Hl|].
    intros <-. rewrite fresh_in_messages in Hl. discriminate. }
  split; [exact Hh|]. split.
  - intros pk m Hl. apply Hstep in Hl.
    destruct (fst (respond' msg geo session context w)); try contradiction;
      try (destruct Hm as (_ & -> & ->); now apply Hbot);
      try (destruct Hm as (_ & ->); exact Hl).
    rewrite Hm. exact Hl.
  - intros sid s Hsid. exists s. rewrite Hs. auto.
Qed.

(** X11.  Whatever the request, the view keeps the history: no message
    is changed or removed, no session is removed or changes its user, the
    context of a session that already had a message stays as it was, and
    the herd is not touched. *)
Theorem chat_api_keeps_history (request : Request) (w : World) :
  history_kept w (snd (chat request w)).
Proof.
  unfold chat_api.
  destruct (String.eqb _ _); [apply history_kept_refl|].
  destruct (negb _); [apply history_kept_refl|].
  destruct (resolve_session_spec float_repr (request_user request)
              (request_context request) w) as (Hk & _ & _).
  destruct (resolve (request_user request) (request_context request) w)
    as [[[session context]|] w1]; cbn [snd] in *; [|exact Hk].
  eapply history_kept_trans; [exact Hk|]. apply respond_kept.
Qed.

(** X12.  A reply is on record: the bot message that the reply names
    holds the text of the reply, it is new, it belongs to the session that
    the reply names, that session is a session of the asking user, and the
    message of the user was stored in it just before. *)
Theorem reply_is_stored (request : Request) (w : World)
  (text : string) (bot_pk session : positive) :
  reply_parts (fst (chat request w)) = Some (text, bot_pk, session) ->
  exists location user_pk s,
    messages (db (snd (chat request w))) !! bot_pk
      = Some (new_message session RoleBot text location) /\
    messages (db (snd (chat request w))) !! user_pk
      = Some (new_message session RoleUser (Str.strip (request_message request)) location) /\
    messages (db w) !! bot_pk = None /\
    messages (db w) !! user_pk = None /\
    user_pk <> bot_pk /\
    sessions (db (snd (chat request w))) !! session = Some s /\
    session_user s = user_id (request_user request).
Proof.
  unfold chat_api.
  destruct (String.eqb _ _); [discriminate|].
  destruct (negb _); [discriminate|].
  destruct (resolve_session_spec float_repr (request_user request)
              (request_context request) w) as (_ & Hmsgs & Hsession).
  destruct (resolve (request_user request) (request_context request) w)
    as [[[session0 context]|] w1]; cbn [fst snd] in *; [|discriminate].
  destruct (Hsession session0 context eq_refl) as (_ & s & Hs & Howner).
  destruct (respond_messages (Str.strip (request_message request)) (request_geo_label request)
              session0 context w1) as (Hsessions & _ & Hm).
  cbv zeta in Hm. rewrite Hmsgs in Hm.
  set (label := fst (get_location_label K (request_geo_label request) (web w1))) in *.
  set (user_pk := fresh (dom (messages (db w)))) in *.
  set (with_user := <[ user_pk := _ ]> (messages (db w))) in *.
  intros Hparts.
  assert (Hshape : exists b,
             session = session0 /\ bot_pk = fresh (dom with_user) /\ b = bot_pk /\
             messages (db (snd (respond' (Str.strip (request_message request))
                                   (request_geo_label request) session0 context w1)))
             = <[ bot_pk := new_message session0 RoleBot text label ]> with_user).
  { destruct (fst (respond' _ _ session0 context w1)); try discriminate;
      injection Hparts as <- <- <-; destruct Hm as (-> & Hb & Hm);
      exists bot_message_id; rewrite <- Hb; auto. }
  destruct Hshape as (_ & -> & Hbot & _ & Hfinal).
  assert (Huser : with_user !! user_pk
                  = Some (new_message session0 RoleUser (Str.strip (request_message request)) label))
    by apply lookup_insert_eq.
  assert (Hfresh : with_user !! bot_pk = None) by (rewrite Hbot; apply fresh_in_messages).
  assert (Hne : user_pk <> bot_pk) by congruence.
  exists label, user_pk, s. rewrite Hfinal, Hsessions.
  split; [apply lookup_insert_eq|].
  split; [rewrite lookup_insert_ne by congruence; exact Huser|].
  split.
  { unfold with_user in Hfresh. rewrite lookup_insert_ne in Hfresh by exact Hne. exact Hfresh. }
  split; [apply fresh_in_messages|].
  split; [exact Hne|]. split; [exact Hs | exact Howner].
Qed.

(** X13.  When the model gives no reply, the message of the user is all
    that the request leaves in the message store. *)
Theorem model_error_stores_user_message (request : Request) (w : World)
  (code : option string) (session : positive) :
  fst (chat request w) = ModelError code session ->
  exists location,
    messages (db (snd (chat request w)))
    = <[ fresh (dom (messages (db w)))
         := new_message session RoleUser (Str.strip (request_message request)) location ]>
        (messages (db w)).
Proof.
  unfold chat_api.
  destruct (String.eqb _ _); [discriminate|].
  destruct (negb _); [discriminate|].
  destruct (resolve_session_spec float_repr (request_user request)
              (request_context request) w) as (_ & Hmsgs & _).
  destruct (resolve (request_user request) (request_context request) w)
    as [[[session0 context]|] w1]; cbn [fst snd] in *; [|discriminate].
  destruct (respond_messages (Str.strip (request_message request)) (request_geo_label request)
              session0 context w1) as (_ & _ & Hm).
  cbv zeta in Hm. rewrite Hmsgs in Hm. intros Hr. rewrite Hr in Hm.
  destruct Hm as [<- ->]. eauto.
Qed.

End StoreFacts.

Section CallFacts.
Context (K : constants).
Context (float_repr : pyfloat -> string).
Context (embedding_backend : option (string -> option pyfloat)).
Context (ALLOWED_SIMILARITY : pyfloat).
Context (call_groq_sync : Database -> GroqCall -> option GroqResponse).

Local Abbreviation chat :=
  (chat_api K float_repr embedding_backend ALLOWED_SIMILARITY call_groq_sync).
Local Abbreviation respond' :=
  (respond K float_repr embedding_backend ALLOWED_SIMILARITY call_groq_sync).
Local Abbreviation resolve := (resolve_session float_repr).



End CallFacts.

Section MoreViewFacts.
Context (K : constants).
Context (float_repr : pyfloat -> string).
Context (ALLOWED_SIMILARITY : pyfloat).
Context (call_groq_sync : Database -> GroqCall -> option GroqResponse).

Local Abbreviation resolve := (resolve_session float_repr).

(** X15.  A semantic filter that raises on a message is treated like a
    filter that is not installed: the view does for the request what it
    does without the filter. *)
Theorem failing_filter_is_no_filter (best_score : string -> option pyfloat)
  (request : Request) (w : World) :
  best_score (Str.strip (request_message request)) = None ->
  chat_api K float_repr (Some best_score) ALLOWED_SIMILARITY call_groq_sync request w
  = chat_api K float_repr None ALLOWED_SIMILARITY call_groq_sync request w.
Proof.
  intros Hraises. unfold chat_api.
  destruct (String.eqb _ _); [reflexivity|].
  destruct (negb _); [reflexivity|].
  destruct (resolve _ _ w) as [[[session context]|] w1]; [|reflexivity].
  assert (Hpass : embedding_pass (Some best_score) ALLOWED_SIMILARITY
                    (Str.strip (request_message request))
                  = embedding_pass None ALLOWED_SIMILARITY (Str.strip (request_message request))).
  { unfold embedding_pass, is_cattle_related. rewrite Hraises.
    destruct (String.eqb _ _); reflexivity. }
  unfold respond. rewrite Hpass. reflexivity.
Qed.

(** X16.  Every message that a request adds belongs to a session of the
    asking user, the one that the pointer to the active session names
    afterwards: a request never writes into a session of somebody else,
    whatever the pointer named before. *)
Theorem new_messages_belong_to_user
  (embedding_backend : option (string -> option pyfloat))
  (request : Request) (w : World) (pk : positive) (m : ChatMessage) :
  let w' := snd (chat_api K float_repr embedding_backend ALLOWED_SIMILARITY call_groq_sync
                   request w) in
  messages (db w) !! pk = None ->
  messages (db w') !! pk = Some m ->
  chatbot_session_id (web w') = Some (message_session m) /\
  exists s, sessions (db w') !! message_session m = Some s /\
            session_user s = user_id (request_user request).
Proof.
  cbv zeta. unfold chat_api.
  destruct (String.eqb _ _); [cbn; congruence|].
  destruct (negb _); [cbn; congruence|].
  destruct (resolve_session_spec float_repr (request_user request)
              (request_context request) w) as (_ & Hmsgs & Hsession).
  destruct (resolve (request_user request) (request_context request) w)
    as [[[session context]|] w1]; cbn [fst snd] in *; [|congruence].
  destruct (Hsession session context eq_refl) as (Hpointer & s & Hs & Howner).
  destruct (respond_messages K float_repr embedding_backend ALLOWED_SIMILARITY call_groq_sync
              (Str.strip (request_message request)) (request_geo_label request)
              session context w1) as (Hsessions & _ & Hm).
  destruct (respond_only_adds K float_repr embedding_backend ALLOWED_SIMILARITY call_groq_sync
              (Str.strip (request_message request)) (request_geo_label request)
              session context w1) as ((_ & Hweb & _) & _).
  cbv zeta in Hm. rewrite Hmsgs in Hm.
  set (r := respond K float_repr embedding_backend ALLOWED_SIMILARITY call_groq_sync _ _ _ _ _) in *.
  set (label := fst (get_location_label K (request_geo_label request) (web w1))) in *.
  set (with_user := <[ _ := _ ]> (messages (db w))) in *.
  intros Hold Hnew. rewrite Hweb, Hsessions, Hpointer.
  assert (Hsession_of : message_session m = session).
  { assert (Hu : forall m0, with_user !! pk = Some m0 -> message_session m0 = session).
    { intros m0. unfold with_user.
      destruct (decide (fresh (dom (messages (db w))) = pk)) as [<-|Hne].
      - rewrite lookup_insert_eq. now intros [= <-].
      - rewrite lookup_insert_ne by exact Hne. congruence. }
    assert (Hb : forall text b m0,
               <[ b := new_message session RoleBot text label ]> with_user !! pk = Some m0 ->
               message_session m0 = session).
    { intros text b m0. destruct (decide (b = pk)) as [<-|Hne].
      - rewrite lookup_insert_eq. now intros [= <-].
      - rewrite lookup_insert_ne by exact Hne. apply Hu. }
    destruct (fst r); try contradiction;
      try (destruct Hm as (_ & _ & Hm); rewrite Hm in Hnew; exact (Hb _ _ _ Hnew));
      try (destruct Hm as (_ & Hm); rewrite Hm in Hnew; exact (Hu _ Hnew)).
    rewrite Hm in Hnew. exact (Hu _ Hnew). }
  rewrite Hsession_of. split; [reflexivity|]. eauto.
Qed.

End MoreViewFacts.

Section FilterFacts.

Lemma float_leb_trans (x y z : pyfloat) :
  Float.leb x y = true -> Float.leb y z = true -> Float.leb x z = true.
Proof.
  destruct x as [n1 d1|[|]|], y as [n2 d2|[|]|], z as [n3 d3|[|]|];
    simpl; try discriminate; try reflexivity.
  intros H1 H2. apply Z.leb_le in H1, H2. apply Z.leb_le.
  apply (Z.mul_le_mono_pos_r _ _ (Z.pos d2)); [lia|]. nia.
Qed.

(** X17.  The semantic filter answers "not related, score 0" for the
    empty query without running the model, passes a query exactly when
    its best score reaches the threshold, and a query that passes keeps
    passing when the threshold is lowered. *)
Theorem is_cattle_related_threshold (best_score : string -> option pyfloat)
  (threshold : pyfloat) :
  is_cattle_related best_score threshold "" = Some (false, Fin 0 1) /\
  (forall query best,
      query <> "" -> best_score query = Some best ->
      is_cattle_related best_score threshold query = Some (Float.leb threshold best, best)) /\
  (forall query lower best,
      Float.leb lower threshold = true ->
      is_cattle_related best_score threshold query = Some (true, best) ->
      is_cattle_related best_score lower query = Some (true, best)).
Proof.
  split; [reflexivity|]. split.
  - intros query best Hq Hb. unfold is_cattle_related.
    destruct (String.eqb_spec query "") as [|_]; [contradiction|]. now rewrite Hb.
  - intros query lower best Hlow. unfold is_cattle_related.
    destruct (String.eqb query ""); [discriminate|].
    destruct (best_score query) as [b|]; [|discriminate].
    intros [= Hpass <-]. now rewrite (float_leb_trans _ _ _ Hlow Hpass).
Qed.

End FilterFacts.

Section LocationFacts.
Context (K : constants).

(** X18.  The location label is looked up once per web session: after a
    first call, any later call returns the same label and leaves the
    session as it is, whatever a new lookup would give. *)
Theorem location_label_is_cached (geo geo' : option string) (s : WebSession) :
  DEFAULT_LOCATION_LABEL K <> "" ->
  get_location_label K geo' (snd (get_location_label K geo s)) = get_location_label K geo s.
Proof.
  intros Hdefault.
  assert (Hne : nonempty (DEFAULT_LOCATION_LABEL K) = true).
  { unfold nonempty. destruct (String.eqb_spec (DEFAULT_LOCATION_LABEL K) ""); [contradiction|reflexivity]. }
  unfold get_location_label.
  destruct (chatbot_location_label s) as [cached|] eqn:Hc.
  - destruct (nonempty cached) eqn:Hn.
    + cbn [snd]. rewrite Hc, Hn. reflexivity.
    + destruct geo as [label|]; [destruct (nonempty label) eqn:Hl|];
        cbn [snd set_location_label chatbot_location_label]; rewrite ?Hl, ?Hne; reflexivity.
  - destruct geo as [label|]; [destruct (nonempty label) eqn:Hl|];
      cbn [snd set_location_label chatbot_location_label]; rewrite ?Hl, ?Hne; reflexivity.
Qed.

End LocationFacts.

Section SettleFacts.
Context (K : constants).
Context (float_repr : pyfloat -> string).
Context (embedding_backend : option (string -> option pyfloat)).
Context (ALLOWED_SIMILARITY : pyfloat).
Context (call_groq_sync : Database -> GroqCall -> option GroqResponse).

Local Abbreviation chat :=
  (chat_api K float_repr embedding_backend ALLOWED_SIMILARITY call_groq_sync).


End SettleFacts.

Lemma reply_is_stored_witness :
  exists text location,
    fst (sample_chat_api tulsi_request gauri_world) = Answer text 3%positive 2%positive /\
    messages (db (snd (sample_chat_api tulsi_request gauri_world))) !! 3%positive
      = Some (new_message 2 RoleBot text location).
Proof.
  assert (Hparts : reply_parts (fst (sample_chat_api tulsi_request gauri_world))
                   = Some ("Keep the udder clean.
- Call your veterinarian.", 3%positive, 2%positive)) by (vm_compute; reflexivity).
  destruct (reply_is_stored sample_constants sample_float_repr None (Fin 65 100) sample_groq
              tulsi_request gauri_world _ _ _ Hparts)
    as (location & user_pk & s & Hbot & _).
  eexists _, location. split; [vm_compute; reflexivity | exact Hbot].
Defined.

Lemma model_error_stores_user_message_witness :
  exists location,
    messages (db (snd (chat_api sample_constants sample_float_repr None (Fin 65 100)
                         failing_groq tulsi_request gauri_world)))
    = <[ 2%positive := new_message 2 RoleUser "my cow has mastitis" location ]>
        (messages (db gauri_world)).
Proof.
  apply (model_error_stores_user_message sample_constants sample_float_repr None (Fin 65 100)
           failing_groq tulsi_request gauri_world (Some "http_503") 2%positive).
  vm_compute. reflexivity.
Defined.

Lemma failing_filter_is_no_filter_witness :
  chat_api sample_constants sample_float_repr (Some broken_filter) (Fin 65 100) sample_groq
    weather_request empty_world
  = sample_chat_api weather_request empty_world.
Proof.
  apply (failing_filter_is_no_filter sample_constants sample_float_repr (Fin 65 100)
           sample_groq broken_filter weather_request empty_world).
  reflexivity.
Defined.

Lemma new_messages_belong_to_user_witness :
  chatbot_session_id (web (snd (sample_chat_api tulsi_request gauri_world))) = Some 2%positive /\
  exists s, sessions (db (snd (sample_chat_api tulsi_request gauri_world))) !! 2%positive = Some s /\
            session_user s = 1%positive.
Proof.
  apply (new_messages_belong_to_user sample_constants sample_float_repr (Fin 65 100) sample_groq
           None tulsi_request gauri_world 3%positive
           (new_message 2 RoleBot "Keep the udder clean.
- Call your veterinarian." "India")).
  - vm_compute. reflexivity.
  - vm_compute. reflexivity.
Defined.

Lemma is_cattle_related_threshold_witness :
  is_cattle_related (fun _ => Some (Fin 7 10)) (Fin 5 10) "fodder for calves"
  = Some (true, Fin 7 10).
Proof.
  destruct (is_cattle_related_threshold (fun _ => Some (Fin 7 10)) (Fin 65 100))
    as (_ & Hscore & Hlower).
  apply (Hlower "fodder for calves" (Fin 5 10) (Fin 7 10)); [reflexivity|].
  rewrite (Hscore "fodder for calves" (Fin 7 10)); [reflexivity | discriminate | reflexivity].
Defined.

Lemma location_label_is_cached_witness :
  get_location_label sample_constants (Some "Kochi, Kerala, India")
    (snd (get_location_label sample_constants None
            {| chatbot_session_id := None; chatbot_location_label := None |}))
  = ("India", {| chatbot_session_id := None; chatbot_location_label := Some "India" |}).
Proof.
  rewrite (location_label_is_cached sample_constants None (Some "Kochi, Kerala, India")).
  - reflexivity.
  - discriminate.
Defined.

